(** * Order-creation orchestration of order-service/main.go

    A shallow embedding of the [CreateOrder] handler of the order service
    and of the collaborators it calls into (the JSON decoder, the two HTTP
    peers, the orders table, the clock), followed by the properties of the
    orchestration flow. *)

From Stdlib Require Import ZArith List String Bool Lia.
From Stdlib Require Import DecimalString PrimFloat.
From Stdlib Require DecimalZ.
Import ListNotations.

Local Open Scope string_scope.
Local Open Scope list_scope.
Local Open Scope Z_scope.

(** ** Data *)

(** Go's [int] and [time.Time]: the handler never computes with either, so
    both are carried as integers ([Time] as an instant on the clock). *)
Definition Time := Z.

(** Go's [float64]. *)
Definition float64 := PrimFloat.float.

(** [type Order struct] *)
Record Order := mkOrder {
  ID : Z;
  UserID : Z;
  Product : string;
  Quantity : Z;
  Amount : float64;
  Status : string;
  CreatedAt : Time
}.

(** Assignments to the fields the handler writes. *)
Definition set_ID (o : Order) (id : Z) : Order :=
  mkOrder id (UserID o) (Product o) (Quantity o) (Amount o) (Status o)
          (CreatedAt o).

Definition set_Status (o : Order) (status : string) : Order :=
  mkOrder (ID o) (UserID o) (Product o) (Quantity o) (Amount o) status
          (CreatedAt o).

Definition set_CreatedAt (o : Order) (t : Time) : Order :=
  mkOrder (ID o) (UserID o) (Product o) (Quantity o) (Amount o) (Status o) t.

(** [type OrderService struct]; the [db] handle points into the [World]
    below. *)
Record OrderService := mkOrderService {
  userServiceURL : string;
  paymentServiceURL : string
}.

Definition StatusOK : Z := 200.
Definition StatusBadRequest : Z := 400.
Definition StatusInternalServerError : Z := 500.

(** [%d] of [fmt.Sprintf]. *)
Definition itoa (n : Z) : string := NilEmpty.string_of_int (Z.to_int n).

(** ** The world the handler runs in *)

(** A row of the [orders] table, in the column order of the INSERT. *)
Record Row := mkRow {
  row_id : Z;
  row_user_id : Z;
  row_product : string;
  row_quantity : Z;
  row_amount : float64;
  row_status : string;
  row_created_at : Time
}.

(** Modelled from the spec: the DDL of the [orders] table is not in the
    source.  Section 3 of the specification gives the identifier as "unique,
    assigned at creation time by the Order Store"; the table is modelled with
    a PostgreSQL serial [id] column, so it carries the next value of its
    sequence. *)
Record DB := mkDB {
  orders : list Row;
  next_id : Z
}.

(** What the far end of an HTTP round trip does: the transport fails, a
    response with a status code arrives, or nothing ever comes back. *)
Inductive Peer :=
| Refuses (err : string)
| Answers (code : Z)
| Silent.

(** The calls the handler makes, as they leave the process. *)
Inductive Call :=
| HttpGet (url : string)
| HttpPost (url : string) (order_id : Z) (amount : float64)
| DbInsert (user_id : Z) (product : string) (quantity : Z)
           (amount : float64) (status : string) (created_at : Time)
| DbUpdate (status : string) (id : Z).

(** Everything outside the process during one invocation: the two HTTP
    peers, whether the store rejects the INSERT or the UPDATE, and the
    clock. *)
Record Env := mkEnv {
  get_peer : string -> Peer;
  post_peer : string -> Z -> float64 -> Peer;
  insert_error : option string;
  update_error : option string;
  now : Time
}.

(** The state shared across invocations: the store, and the calls made so
    far, oldest first. *)
Record World := mkWorld {
  db : DB;
  log : list Call
}.

(** ** A state monad with blocking *)

(** A computation either returns with a value, or is still waiting in a call
    that never comes back. *)
Inductive Result (A : Type) :=
| Ret (a : A) (w : World)
| Hang (w : World).

Arguments Ret {A} a w.
Arguments Hang {A} w.

Definition M (A : Type) := World -> Result A.

Definition ret {A : Type} (a : A) : M A := fun w => Ret a w.

Definition bind {A B : Type} (m : M A) (k : A -> M B) : M B :=
  fun w => match m w with
           | Ret a w' => k a w'
           | Hang w' => Hang w'
           end.

Declare Scope go_scope.
Delimit Scope go_scope with go.
Notation "x <- m ;; k" := (bind m (fun x => k))
  (at level 61, m at next level, right associativity) : go_scope.
Notation "m ;;; k" := (bind m (fun _ => k))
  (at level 61, right associativity) : go_scope.
Local Open Scope go_scope.

Definition emit (c : Call) : M unit :=
  fun w => Ret tt (mkWorld (db w) (log w ++ [c])).

Definition world_of {A : Type} (r : Result A) : World :=
  match r with
  | Ret _ w => w
  | Hang w => w
  end.

Definition value_of {A : Type} (r : Result A) : option A :=
  match r with
  | Ret a _ => Some a
  | Hang _ => None
  end.

(** ** net/http, client side *)

(** [http.Client]: only the field that matters here.  A [Timeout] of zero
    means no timeout. *)
Record Client := mkClient { Timeout : Z }.

(** [http.Get] and [http.Post] go through [http.DefaultClient], the zero
    [Client]. *)
Definition DefaultClient : Client := mkClient 0.

(** One round trip: [Some (inl err)] is Go's [err != nil], [Some (inr code)]
    a response with that status, [None] a call that does not return. *)
Definition Do (c : Client) (p : Peer) : option (string + Z) :=
  match p with
  | Refuses err => Some (inl err)
  | Answers code => Some (inr code)
  | Silent => if Timeout c =? 0 then None
              else Some (inl "Client.Timeout exceeded while awaiting headers")
  end.

Definition roundTrip (c : Client) (p : Peer) : M (string + Z) :=
  fun w => match Do c p with
           | Some r => Ret r w
           | None => Hang w
           end.

(** ** net/http, server side *)

Inductive ResponseBody :=
| ErrorText (msg : string)
| OrderJSON (o : Order).

Record Response := mkResponse {
  Code : Z;
  ContentType : string;
  Payload : ResponseBody
}.

(** [http.Error(w, msg, code)] *)
Definition http_Error (msg : string) (code : Z) : Response :=
  mkResponse code "text/plain; charset=utf-8" (ErrorText msg).

(** The request body as [json.Decoder.Decode] sees it: bytes it rejects with
    an error, or bytes it accepts, with the [Order] it fills in (fields the
    payload omits keep their zero value). *)
Inductive Body :=
| Malformed (err : string)
| Json (o : Order).

Record Request := mkRequest { ReqBody : Body }.

Definition Decode (b : Body) : string + Order :=
  match b with
  | Malformed err => inl err
  | Json o => inr o
  end.

(** ** The order service *)

Definition set_status (status : string) (id : Z) (r : Row) : Row :=
  if row_id r =? id
  then mkRow (row_id r) (row_user_id r) (row_product r) (row_quantity r)
             (row_amount r) status (row_created_at r)
  else r.

(** [fmt.Sprintf("%s/users/get?id=%d", s.userServiceURL, userID)] *)
Definition user_url (s : OrderService) (userID : Z) : string :=
  (userServiceURL s ++ "/users/get?id=" ++ itoa userID)%string.

(** [fmt.Sprintf("%s/payments", s.paymentServiceURL)] *)
Definition payment_url (s : OrderService) : string :=
  (paymentServiceURL s ++ "/payments")%string.

Section Handler.

Variable env : Env.

Definition http_Get (url : string) : M (string + Z) :=
  emit (HttpGet url) ;;;
  roundTrip DefaultClient (get_peer env url).

Definition http_Post (url : string) (order_id : Z) (amount : float64)
  : M (string + Z) :=
  emit (HttpPost url order_id amount) ;;;
  roundTrip DefaultClient (post_peer env url order_id amount).

(** [INSERT INTO orders (...) VALUES (...) RETURNING id], scanned into the
    caller's variable. *)
Definition db_insert (user_id : Z) (product : string) (quantity : Z)
    (amount : float64) (status : string) (created_at : Time) : M (string + Z) :=
  emit (DbInsert user_id product quantity amount status created_at) ;;;
  fun w =>
    match insert_error env with
    | Some err => Ret (inl err) w
    | None =>
        let id := next_id (db w) in
        let row := mkRow id user_id product quantity amount status created_at in
        Ret (inr id) (mkWorld (mkDB (orders (db w) ++ [row]) (id + 1)) (log w))
    end.

(** [UPDATE orders SET status = $1 WHERE id = $2]; the caller drops both
    results of [Exec]. *)
Definition db_update (status : string) (id : Z) : M unit :=
  emit (DbUpdate status id) ;;;
  fun w =>
    match update_error env with
    | Some _ => Ret tt w
    | None =>
        Ret tt (mkWorld (mkDB (map (set_status status id) (orders (db w)))
                              (next_id (db w)))
                        (log w))
    end.

(** [func (s *OrderService) validateUser(userID int) error]; [None] is
    [nil]. *)
Definition validateUser (s : OrderService) (userID : Z) : M (option string) :=
  let url := user_url s userID in
  r <- http_Get url ;;
  match r with
  | inl err => ret (Some ("user service unavailable: " ++ err)%string)
  | inr code =>
      if negb (code =? StatusOK) then ret (Some "user not found")
      else ret None
  end.

(** [func (s *OrderService) processPayment(orderID int, amount float64) error] *)
Definition processPayment (s : OrderService) (orderID : Z) (amount : float64)
  : M (option string) :=
  let url := payment_url s in
  r <- http_Post url orderID amount ;;
  match r with
  | inl err => ret (Some ("payment service unavailable: " ++ err)%string)
  | inr code =>
      if negb (code =? StatusOK) then ret (Some "payment failed")
      else ret None
  end.

(** [func (s *OrderService) CreateOrder(w http.ResponseWriter, r *http.Request)];
    the response written to [w] is the value returned. *)
Definition CreateOrder (s : OrderService) (r : Request) : M Response :=
  match Decode (ReqBody r) with
  | inl err => ret (http_Error err StatusBadRequest)
  | inr order =>
      (* Validate user exists (call user service) *)
      verr <- validateUser s (UserID order) ;;
      match verr with
      | Some err => ret (http_Error err StatusBadRequest)
      | None =>
          (* Create order *)
          let order := set_Status order "pending" in
          let order := set_CreatedAt order (now env) in
          ins <- db_insert (UserID order) (Product order) (Quantity order)
                           (Amount order) (Status order) (CreatedAt order) ;;
          match ins with
          | inl err => ret (http_Error err StatusInternalServerError)
          | inr id =>
              let order := set_ID order id in
              (* Process payment (call payment service) *)
              perr <- processPayment s (ID order) (Amount order) ;;
              match perr with
              | Some err =>
                  (* Update order status to failed *)
                  db_update "payment_failed" (ID order) ;;;
                  ret (http_Error err StatusInternalServerError)
              | None =>
                  (* Update order status *)
                  let order := set_Status order "completed" in
                  db_update (Status order) (ID order) ;;;
                  ret (mkResponse StatusOK "application/json" (OrderJSON order))
              end
          end
      end
  end.

End Handler.

(** ** Vocabulary of the properties *)

(** A peer's answer counts as success exactly when it is a 200. *)
Definition succeeds (p : Peer) : Prop := p = Answers StatusOK.

(** A failed call: the peer is unreachable ([http.Get] or [http.Post] comes
    back with an error), or it answers with another status.  A peer that
    never answers is neither a success nor a failure: the call is still
    pending. *)
Definition fails (p : Peer) : Prop :=
  match p with
  | Refuses _ => True
  | Answers code => code <> StatusOK
  | Silent => False
  end.

Definition valid_status (st : string) : Prop :=
  st = "pending" \/ st = "completed" \/ st = "payment_failed".

Definition terminal (st : string) : Prop :=
  st = "completed" \/ st = "payment_failed".

(** Every identifier in the table was drawn from its sequence. *)
Definition wf_db (d : DB) : Prop :=
  Forall (fun r => row_id r < next_id d) (orders d).

(** The row the INSERT of [CreateOrder] writes for payload [o]. *)
Definition new_row (env : Env) (o : Order) (id : Z) (status : string) : Row :=
  mkRow id (UserID o) (Product o) (Quantity o) (Amount o) status (now env).

Definition insert_call (env : Env) (o : Order) : Call :=
  DbInsert (UserID o) (Product o) (Quantity o) (Amount o) "pending" (now env).

Definition is_insert (c : Call) : bool :=
  match c with DbInsert _ _ _ _ _ _ => true | _ => false end.

Definition is_update (c : Call) : bool :=
  match c with DbUpdate _ _ => true | _ => false end.

Definition is_get (c : Call) : bool :=
  match c with HttpGet _ => true | _ => false end.

Definition is_post (c : Call) : bool :=
  match c with HttpPost _ _ _ => true | _ => false end.

Definition count (f : Call -> bool) (l : list Call) : nat :=
  List.length (filter f l).

Definition request (o : Order) : Request := mkRequest (Json o).

(** What the UPDATE leaves in the table: nothing changes when the store
    rejects it. *)
Definition finalize (env : Env) (status : string) (id : Z) (rows : list Row)
  : list Row :=
  match update_error env with
  | Some _ => rows
  | None => map (set_status status id) rows
  end.

(** The status the new row ends with once an UPDATE to [status] was sent. *)
Definition stored_status (env : Env) (status : string) : string :=
  match update_error env with
  | Some _ => "pending"
  | None => status
  end.

(** The world once the INSERT for [o] has gone through. *)
Definition inserted (env : Env) (o : Order) (w : World) (rows : list Row)
    (calls : list Call) : World :=
  mkWorld (mkDB rows (next_id (db w) + 1)) (log w ++ calls).

Definition called (w : World) (calls : list Call) : World :=
  mkWorld (db w) (log w ++ calls).

(** The four steps of the orchestration. *)
Inductive Step := Validate | Insert | Pay | Finalize.

Definition step_of (c : Call) : Step :=
  match c with
  | HttpGet _ => Validate
  | DbInsert _ _ _ _ _ _ => Insert
  | HttpPost _ _ _ => Pay
  | DbUpdate _ _ => Finalize
  end.

(** What a store call may write into the status column during an invocation
    that started with the sequence at [id]. *)
Definition status_write_ok (id : Z) (c : Call) : Prop :=
  match c with
  | DbInsert _ _ _ _ st _ => st = "pending"
  | DbUpdate st id' => terminal st /\ id' = id
  | _ => True
  end.

(** The environment with one peer swapped. *)
Definition with_user_peer (env : Env) (p : Peer) : Env :=
  mkEnv (fun _ => p) (post_peer env) (insert_error env) (update_error env)
        (now env).

Definition with_payment_peer (env : Env) (p : Peer) : Env :=
  mkEnv (get_peer env) (fun _ _ _ => p) (insert_error env) (update_error env)
        (now env).

(** ** Concrete scenarios *)

Module Scenario.

Definition svc : OrderService :=
  mkOrderService "http://users:8081" "http://payments:8083".

Definition w0 : World := mkWorld (mkDB [] 1) [].

(** The user directory knows user 1 only. *)
Definition users (url : string) : Peer :=
  if String.eqb url "http://users:8081/users/get?id=1"
  then Answers 200 else Answers 404.

Definition book : Order := mkOrder 0 1 "book" 2 19.5%float "" 0.

Definition happy : Env :=
  mkEnv users (fun _ _ _ => Answers 200) None None 1000.

Definition declined : Env :=
  mkEnv users (fun _ _ _ => Answers 402) None None 1000.

Definition payments_down : Env :=
  mkEnv users (fun _ _ _ => Refuses "connection refused") None None 1000.

Definition payments_silent : Env :=
  mkEnv users (fun _ _ _ => Silent) None None 1000.

Definition users_silent : Env :=
  mkEnv (fun _ => Silent) (fun _ _ _ => Answers 200) None None 1000.

Definition users_down : Env :=
  mkEnv (fun _ => Refuses "connection refused") (fun _ _ _ => Answers 200)
        None None 1000.

Definition store_down : Env :=
  mkEnv users (fun _ _ _ => Answers 200) (Some "pq: connection lost") None 1000.

Definition update_lost : Env :=
  mkEnv users (fun _ _ _ => Answers 200) None (Some "pq: connection lost") 1000.

(** An empty product and a negative amount, for a known user. *)
Definition cheap : Order := mkOrder 0 1 "" 1 (-5)%float "" 0.

(** A user identifier that is not positive. *)
Definition nobody : Order := mkOrder 0 (-3) "book" 1 10%float "" 0.

(** A user the directory does not know. *)
Definition stranger : Order := mkOrder 0 999 "book" 1 10%float "" 0.

(** The payload of [book] with an id, a status and a created_at forged by
    the client. *)
Definition forged : Order := mkOrder 77 1 "book" 2 19.5%float "completed" 5.

End Scenario.

(** ** The payload, field by field *)

(** What [json.Decoder.Decode] finds in the payload for one field of
    [Order]: nothing (the key is absent or null, and the field keeps its
    zero value), a JSON value of the field's Go type, or a JSON value that
    this type cannot take (a string for an [int], a number for a [string],
    text that is no timestamp for a [time.Time]); [what] names the value
    found. *)
Inductive Raw (T : Type) :=
| Absent
| Fits (v : T)
| Misfit (what : string).

Arguments Absent {T}.
Arguments Fits {T} v.
Arguments Misfit {T} what.

(** A payload that is well-formed JSON, read along the json tags of
    [Order]; [complaint] is the text of the error [Decode] returns when it
    rejects the payload. *)
Record RawOrder := mkRawOrder {
  raw_id : Raw Z;
  raw_user_id : Raw Z;
  raw_product : Raw string;
  raw_quantity : Raw Z;
  raw_amount : Raw float64;
  raw_status : Raw string;
  raw_created_at : Raw Time;
  complaint : string
}.

Definition fits {T : Type} (r : Raw T) : bool :=
  match r with
  | Misfit _ => false
  | _ => true
  end.

Definition taken {T : Type} (zero : T) (r : Raw T) : T :=
  match r with
  | Fits v => v
  | _ => zero
  end.

(** [Decode(&order)] on such a payload, [order] being the zero [Order]
    before: an error as soon as one field misfits, the filled-in struct
    otherwise. *)
Definition decode_raw (p : RawOrder) : string + Order :=
  if fits (raw_id p) && fits (raw_user_id p) && fits (raw_product p) &&
     fits (raw_quantity p) && fits (raw_amount p) && fits (raw_status p) &&
     fits (raw_created_at p)
  then inr (mkOrder (taken 0 (raw_id p)) (taken 0 (raw_user_id p))
                    (taken "" (raw_product p)) (taken 0 (raw_quantity p))
                    (taken 0%float (raw_amount p)) (taken "" (raw_status p))
                    (taken 0 (raw_created_at p)))
  else inl (complaint p).

Definition raw_body (p : RawOrder) : Body :=
  match decode_raw p with
  | inl err => Malformed err
  | inr o => Json o
  end.

Definition raw_request (p : RawOrder) : Request :=
  mkRequest (raw_body p).

(** Two payloads that differ at most in id, status and created_at. *)
Definition same_order_fields (p1 p2 : RawOrder) : Prop :=
  raw_user_id p1 = raw_user_id p2 /\
  raw_product p1 = raw_product p2 /\
  raw_quantity p1 = raw_quantity p2 /\
  raw_amount p1 = raw_amount p2.

Module Payloads.

(** user 1 orders two books; no id, status or created_at is sent. *)
Definition plain : RawOrder :=
  mkRawOrder Absent (Fits 1) (Fits "book") (Fits 2) (Fits 19.5%float)
            Absent Absent "".

(** The same, with an id, a status and a created_at of the right types. *)
Definition dressed : RawOrder :=
  mkRawOrder (Fits 77) (Fits 1) (Fits "book") (Fits 2) (Fits 19.5%float)
            (Fits "completed") (Fits 5) "".

(** The same as [plain], with the id sent as a JSON string. *)
Definition quoted_id : RawOrder :=
  mkRawOrder (Misfit "the string 7") (Fits 1) (Fits "book") (Fits 2)
            (Fits 19.5%float) Absent Absent
            "json: cannot unmarshal string into Go struct field Order.id of type int".

(** The same as [plain], with the status sent as a JSON number. *)
Definition numeric_status : RawOrder :=
  mkRawOrder Absent (Fits 1) (Fits "book") (Fits 2) (Fits 19.5%float)
            (Misfit "the number 5") Absent
            "json: cannot unmarshal number into Go struct field Order.status of type string".

(** The same as [plain], with a created_at that is no timestamp. *)
Definition today : RawOrder :=
  mkRawOrder Absent (Fits 1) (Fits "book") (Fits 2) (Fits 19.5%float)
            Absent (Misfit "the string today")
            "parsing time: cannot parse the value as a timestamp".

End Payloads.

(** ** Requests served one after another *)

(** [mux.HandleFunc("/orders", service.CreateOrder)]: every request to
    /orders runs [CreateOrder]; here the requests are taken one at a time,
    each with the environment of its moment.  An invocation that is still
    waiting leaves the world as it was when it started to wait. *)
Fixpoint serve (s : OrderService) (reqs : list (Env * Request)) (w : World)
  : World :=
  match reqs with
  | [] => w
  | (env, r) :: rest => serve s rest (world_of (CreateOrder env s r w))
  end.

Definition StatusNotFound : Z := 404.

(** A reader of decimal text, as one way a store may read a text parameter
    that it compares with an integer column. *)
Definition read_decimal (text : string) : option Z :=
  option_map Z.of_int (NilEmpty.int_of_string text).

(** ** The user service, user-service/main.go *)

Module UserService.

(** [type User struct] *)
Record User := mkUser {
  ID : Z;
  Name : string;
  Email : string;
  CreatedAt : Time
}.

(** The [users] table: its rows, in the four columns the SELECT reads, and
    the next value of the sequence behind [id] (the DDL is not in the
    source; [id] is returned by the INSERT, so the store assigns it). *)
Record DB := mkDB {
  users : list User;
  next_id : Z
}.

(** What lies outside the process during one request: whether the store
    rejects the INSERT or the SELECT, how it reads the text parameter that
    the SELECT compares with [id] ([None] when it cannot), and the clock. *)
Record Env := mkEnv {
  insert_error : option string;
  query_error : option string;
  read_id : string -> option Z;
  now : Time
}.

Inductive ResponseBody :=
| ErrorText (msg : string)
| UserJSON (u : User).

Record Response := mkResponse {
  Code : Z;
  ContentType : string;
  Payload : ResponseBody
}.

(** [http.Error(w, msg, code)] *)
Definition http_Error (msg : string) (code : Z) : Response :=
  mkResponse code "text/plain; charset=utf-8" (ErrorText msg).

(** The body of a POST /users as [json.Decoder.Decode] sees it. *)
Inductive Body :=
| Malformed (err : string)
| Json (u : User).

Definition Decode (b : Body) : string + User :=
  match b with
  | Malformed err => inl err
  | Json u => inr u
  end.

(** [INSERT INTO users (name, email, created_at) VALUES ($1, $2, $3)
    RETURNING id] *)
Definition insert_user (env : Env) (name email : string) (created_at : Time)
    (d : DB) : (string + Z) * DB :=
  match insert_error env with
  | Some err => (inl err, d)
  | None =>
      let id := next_id d in
      (inr id, mkDB (users d ++ [mkUser id name email created_at]) (id + 1))
  end.

(** [SELECT id, name, email, created_at FROM users WHERE id = $1], with the
    first row scanned into a [User]. *)
Definition select_user (env : Env) (userID : string) (d : DB) : string + User :=
  match query_error env with
  | Some err => inl err
  | None =>
      match read_id env userID with
      | None => inl "pq: invalid input syntax for type integer"
      | Some n =>
          match find (fun u => ID u =? n) (users d) with
          | Some u => inr u
          | None => inl "sql: no rows in result set"
          end
      end
  end.

(** [func (s *UserService) CreateUser(w http.ResponseWriter, r *http.Request)] *)
Definition CreateUser (env : Env) (body : Body) (d : DB) : Response * DB :=
  match Decode body with
  | inl err => (http_Error err StatusBadRequest, d)
  | inr user =>
      match insert_user env (Name user) (Email user) (now env) d with
      | (inl err, d') => (http_Error err StatusInternalServerError, d')
      | (inr id, d') =>
          let user := mkUser id (Name user) (Email user) (CreatedAt user) in
          (mkResponse StatusOK "application/json" (UserJSON user), d')
      end
  end.

(** [func (s *UserService) GetUser(w http.ResponseWriter, r *http.Request)];
    [userID] is [r.URL.Query().Get("id")]. *)
Definition GetUser (env : Env) (userID : string) (d : DB) : Response :=
  match select_user env userID d with
  | inl _ => http_Error "User not found" StatusNotFound
  | inr user => mkResponse StatusOK "application/json" (UserJSON user)
  end.

(** Every identifier in the table was drawn from its sequence. *)
Definition wf_db (d : DB) : Prop :=
  Forall (fun u => ID u < next_id d) (users d).

(** Concrete values. *)
Definition d0 : DB := mkDB [mkUser 1 "ann" "ann@example.org" 10] 2.

Definition up : Env := mkEnv None None read_decimal 20.

Definition down : Env := mkEnv None (Some "pq: connection lost") read_decimal 20.

Definition bob : User := mkUser 40 "bob" "bob@example.org" 5.

End UserService.

(** The user service as the peer of the order service: its response, as
    [validateUser] sees it. *)
Definition answer_of (r : UserService.Response) : Peer :=
  Answers (UserService.Code r).

(** Concrete wirings of the order service to the user service. *)
Module Wiring.

(** The user service over [UserService.d0] answers the lookup of user 1. *)
Definition wired : Env :=
  mkEnv (fun url =>
           if String.eqb url (user_url Scenario.svc 1)
           then answer_of (UserService.GetUser UserService.up (itoa 1)
                             UserService.d0)
           else Answers 404)
        (fun _ _ _ => Answers 200) None None 1000.

(** The user service answers every lookup from the table as it is after
    [UserService.bob] signed up. *)
Definition after_signup : Env :=
  mkEnv (fun url =>
           answer_of (UserService.GetUser UserService.up (itoa 2)
                        (snd (UserService.CreateUser UserService.up
                                (UserService.Json UserService.bob)
                                UserService.d0))))
        (fun _ _ _ => Answers 200) None None 1000.

Definition for_bob : Order := mkOrder 0 2 "book" 1 10%float "" 0.

End Wiring.

(** ** The single-binary application, monolithic-app/main.go *)

Module Monolith.

(** [type User struct], [type Order struct], [type Payment struct] *)
Record User := mkUser {
  User_ID : Z;
  User_Name : string;
  User_Email : string
}.

Record Order := mkOrder {
  Order_ID : Z;
  Order_UserID : Z;
  Order_Product : string;
  Order_Amount : float64
}.

Record Payment := mkPayment {
  Payment_ID : Z;
  Payment_OrderID : Z;
  Payment_Amount : float64;
  Payment_Status : string
}.

(** [var db *sql.DB]: the three tables behind the one connection, each with
    the next value of the sequence behind its [id] (the DDL is not in the
    source; no INSERT supplies an [id], so the store assigns it). *)
Record DB := mkDB {
  users : list User;
  users_next : Z;
  orders : list Order;
  orders_next : Z;
  payments : list Payment;
  payments_next : Z
}.

(** Whether the store rejects each statement during one request. *)
Record Env := mkEnv {
  users_insert_error : option string;
  users_query_error : option string;
  orders_insert_error : option string;
  payments_insert_error : option string
}.

(** What [json.Decoder.Decode] leaves behind: the struct as far as it was
    filled in, and the error, if any. *)
Record Decoded (T : Type) := mkDecoded {
  value : T;
  decode_error : option string
}.

Arguments mkDecoded {T} value decode_error.
Arguments value {T} d.
Arguments decode_error {T} d.

Inductive ResponseBody :=
| ErrorText (msg : string)
| UserJSON (u : User)
| OrderJSON (o : Order).

(** The status and the body; the handlers set no header of their own. *)
Record Response := mkResponse {
  Code : Z;
  Payload : ResponseBody
}.

(** [http.Error(w, msg, code)] *)
Definition http_Error (msg : string) (code : Z) : Response :=
  mkResponse code (ErrorText msg).

(** [db.Exec("INSERT INTO users (name, email) VALUES ($1, $2)", ...)] *)
Definition insert_user (env : Env) (name email : string) (d : DB)
  : option string * DB :=
  match users_insert_error env with
  | Some err => (Some err, d)
  | None =>
      (None, mkDB (users d ++ [mkUser (users_next d) name email])
                  (users_next d + 1)
                  (orders d) (orders_next d) (payments d) (payments_next d))
  end.

(** [db.Exec("INSERT INTO orders (user_id, product, amount) VALUES ($1, $2, $3)", ...)] *)
Definition insert_order (env : Env) (user_id : Z) (product : string)
    (amount : float64) (d : DB) : option string * DB :=
  match orders_insert_error env with
  | Some err => (Some err, d)
  | None =>
      (None, mkDB (users d) (users_next d)
                  (orders d ++ [mkOrder (orders_next d) user_id product amount])
                  (orders_next d + 1)
                  (payments d) (payments_next d))
  end.

(** [func processPayment(orderID int, amount float64) error] *)
Definition processPayment (env : Env) (orderID : Z) (amount : float64) (d : DB)
  : option string * DB :=
  match payments_insert_error env with
  | Some err => (Some err, d)
  | None =>
      (None, mkDB (users d) (users_next d) (orders d) (orders_next d)
                  (payments d ++
                   [mkPayment (payments_next d) orderID amount "completed"])
                  (payments_next d + 1))
  end.

(** [func getUserByID(userID int) *User]; [None] is [nil]. *)
Definition getUserByID (env : Env) (userID : Z) (d : DB) : option User :=
  match users_query_error env with
  | Some _ => None
  | None => find (fun u => User_ID u =? userID) (users d)
  end.

(** [func createUserHandler(w http.ResponseWriter, r *http.Request)]; the
    error of [Decode] is dropped. *)
Definition createUserHandler (env : Env) (body : Decoded User) (d : DB)
  : Response * DB :=
  let user := value body in
  match insert_user env (User_Name user) (User_Email user) d with
  | (Some err, d') => (http_Error err StatusInternalServerError, d')
  | (None, d') => (mkResponse StatusOK (UserJSON user), d')
  end.

(** [func createOrderHandler(w http.ResponseWriter, r *http.Request)]; the
    error of [Decode] and the error of [processPayment] are dropped. *)
Definition createOrderHandler (env : Env) (body : Decoded Order) (d : DB)
  : Response * DB :=
  let order := value body in
  match getUserByID env (Order_UserID order) d with
  | None => (http_Error "User not found" StatusNotFound, d)
  | Some _ =>
      match insert_order env (Order_UserID order) (Order_Product order)
                         (Order_Amount order) d with
      | (Some err, d') => (http_Error err StatusInternalServerError, d')
      | (None, d') =>
          let (_, d'') :=
            processPayment env (Order_ID order) (Order_Amount order) d' in
          (mkResponse StatusOK (OrderJSON order), d'')
      end
  end.

(** Every user identifier in the table was drawn from its sequence. *)
Definition wf_users (d : DB) : Prop :=
  Forall (fun u => User_ID u < users_next d) (users d).

(** Concrete values. *)
Definition d0 : DB := mkDB [mkUser 1 "ann" "ann@example.org"] 2 [] 1 [] 1.

Definition up : Env := mkEnv None None None None.

Definition pay_down : Env := mkEnv None None None (Some "pq: connection lost").

Definition pen : Decoded Order :=
  mkDecoded (mkOrder 0 1 "pen" 3.5%float) None.

Definition cut_off : Decoded User :=
  mkDecoded (mkUser 0 "" "") (Some "unexpected EOF").

End Monolith.

Example itoa_42 : itoa 42 = "42".
Proof. reflexivity. Qed.

Example itoa_neg : itoa (-7) = "-7".
Proof. reflexivity. Qed.

Example itoa_0 : itoa 0 = "0".
Proof. reflexivity. Qed.

(** A client with a timeout gives up on a silent peer; the default client
    does not. *)
Example timeout_gives_up :
  Do (mkClient 5000) Silent =
  Some (inl "Client.Timeout exceeded while awaiting headers").
Proof. reflexivity. Qed.

Example default_client_waits : Do DefaultClient Silent = None.
Proof. reflexivity. Qed.

(** ** The scenarios of the specification, run *)

Module Runs.
Import Scenario.

(** Scenario A: known user, payment accepted. *)
Example scenario_A :
  CreateOrder happy svc (request book) w0 =
  Ret (mkResponse 200 "application/json"
         (OrderJSON (mkOrder 1 1 "book" 2 19.5%float "completed" 1000)))
      (mkWorld (mkDB [mkRow 1 1 "book" 2 19.5%float "completed" 1000] 2)
               [HttpGet "http://users:8081/users/get?id=1";
                DbInsert 1 "book" 2 19.5%float "pending" 1000;
                HttpPost "http://payments:8083/payments" 1 19.5%float;
                DbUpdate "completed" 1]).
Proof. reflexivity. Qed.

(** Scenario B: known user, payment answered with 402. *)
Example scenario_B :
  CreateOrder declined svc (request book) w0 =
  Ret (mkResponse 500 "text/plain; charset=utf-8" (ErrorText "payment failed"))
      (mkWorld (mkDB [mkRow 1 1 "book" 2 19.5%float "payment_failed" 1000] 2)
               [HttpGet "http://users:8081/users/get?id=1";
                DbInsert 1 "book" 2 19.5%float "pending" 1000;
                HttpPost "http://payments:8083/payments" 1 19.5%float;
                DbUpdate "payment_failed" 1]).
Proof. reflexivity. Qed.

(** Scenario B, with the payment service refusing connections. *)
Example scenario_B_down :
  CreateOrder payments_down svc (request book) w0 =
  Ret (mkResponse 500 "text/plain; charset=utf-8"
         (ErrorText "payment service unavailable: connection refused"))
      (mkWorld (mkDB [mkRow 1 1 "book" 2 19.5%float "payment_failed" 1000] 2)
               [HttpGet "http://users:8081/users/get?id=1";
                DbInsert 1 "book" 2 19.5%float "pending" 1000;
                HttpPost "http://payments:8083/payments" 1 19.5%float;
                DbUpdate "payment_failed" 1]).
Proof. reflexivity. Qed.

(** Scenario C: user 999 is unknown. *)
Example scenario_C :
  CreateOrder happy svc (request stranger) w0 =
  Ret (mkResponse 400 "text/plain; charset=utf-8" (ErrorText "user not found"))
      (mkWorld (mkDB [] 1) [HttpGet "http://users:8081/users/get?id=999"]).
Proof. reflexivity. Qed.

(** Scenario C, with the user service refusing connections. *)
Example scenario_C_down :
  CreateOrder users_down svc (request book) w0 =
  Ret (mkResponse 400 "text/plain; charset=utf-8"
         (ErrorText "user service unavailable: connection refused"))
      (mkWorld (mkDB [] 1) [HttpGet "http://users:8081/users/get?id=1"]).
Proof. reflexivity. Qed.

(** Scenario D: the body does not parse. *)
Example scenario_D :
  CreateOrder happy svc (mkRequest (Malformed "unexpected EOF")) w0 =
  Ret (mkResponse 400 "text/plain; charset=utf-8" (ErrorText "unexpected EOF"))
      w0.
Proof. reflexivity. Qed.

(** Scenario E: the store rejects the INSERT. *)
Example scenario_E :
  CreateOrder store_down svc (request book) w0 =
  Ret (mkResponse 500 "text/plain; charset=utf-8"
         (ErrorText "pq: connection lost"))
      (mkWorld (mkDB [] 1)
               [HttpGet "http://users:8081/users/get?id=1";
                DbInsert 1 "book" 2 19.5%float "pending" 1000]).
Proof. reflexivity. Qed.

(** The store rejects the UPDATE: the response says completed, the table
    says pending. *)
Example update_rejected :
  CreateOrder update_lost svc (request book) w0 =
  Ret (mkResponse 200 "application/json"
         (OrderJSON (mkOrder 1 1 "book" 2 19.5%float "completed" 1000)))
      (mkWorld (mkDB [mkRow 1 1 "book" 2 19.5%float "pending" 1000] 2)
               [HttpGet "http://users:8081/users/get?id=1";
                DbInsert 1 "book" 2 19.5%float "pending" 1000;
                HttpPost "http://payments:8083/payments" 1 19.5%float;
                DbUpdate "completed" 1]).
Proof. reflexivity. Qed.

End Runs.

(** ** How each step runs *)

Section Steps.

Variable env : Env.
Variable s : OrderService.

Lemma validateUser_run (userID : Z) (w : World) :
  validateUser env s userID w =
  match get_peer env (user_url s userID) with
  | Refuses err =>
      Ret (Some ("user service unavailable: " ++ err)%string)
          (called w [HttpGet (user_url s userID)])
  | Answers code =>
      Ret (if code =? StatusOK then None else Some "user not found")
          (called w [HttpGet (user_url s userID)])
  | Silent => Hang (called w [HttpGet (user_url s userID)])
  end.
Proof.
  unfold validateUser, http_Get, bind, emit, roundTrip, ret, called, Do.
  destruct (get_peer env (user_url s userID)) as [err|code|]; simpl; auto.
  destruct (code =? StatusOK); reflexivity.
Qed.

Lemma processPayment_run (orderID : Z) (amount : float64) (w : World) :
  processPayment env s orderID amount w =
  match post_peer env (payment_url s) orderID amount with
  | Refuses err =>
      Ret (Some ("payment service unavailable: " ++ err)%string)
          (called w [HttpPost (payment_url s) orderID amount])
  | Answers code =>
      Ret (if code =? StatusOK then None else Some "payment failed")
          (called w [HttpPost (payment_url s) orderID amount])
  | Silent => Hang (called w [HttpPost (payment_url s) orderID amount])
  end.
Proof.
  unfold processPayment, http_Post, bind, emit, roundTrip, ret, called, Do.
  destruct (post_peer env (payment_url s) orderID amount) as [err|code|];
    simpl; auto.
  destruct (code =? StatusOK); reflexivity.
Qed.

Lemma db_insert_run (o : Order) (w : World) :
  db_insert env (UserID o) (Product o) (Quantity o) (Amount o)
            "pending" (now env) w =
  match insert_error env with
  | Some err => Ret (inl err) (called w [insert_call env o])
  | None =>
      Ret (inr (next_id (db w)))
          (inserted env o w
             (orders (db w) ++ [new_row env o (next_id (db w)) "pending"])
             [insert_call env o])
  end.
Proof.
  unfold db_insert, bind, emit, called, inserted, insert_call, new_row.
  destruct (insert_error env); reflexivity.
Qed.

Lemma db_update_run (status : string) (id : Z) (w : World) :
  db_update env status id w =
  Ret tt (mkWorld (mkDB (finalize env status id (orders (db w)))
                        (next_id (db w)))
                  (log w ++ [DbUpdate status id])).
Proof.
  unfold db_update, bind, emit, finalize.
  destruct (update_error env); simpl; auto.
  destruct w as [[rows n] l]; reflexivity.
Qed.

End Steps.

(** The UPDATE touches no row drawn earlier from the sequence, and rewrites
    the status of the row just inserted. *)
Lemma set_status_older (status : string) (n : Z) (rows : list Row) :
  Forall (fun r => row_id r < n) rows ->
  map (set_status status n) rows = rows.
Proof.
  induction 1 as [|r rows Hr _ IH]; simpl; [reflexivity|].
  rewrite IH. unfold set_status.
  destruct (Z.eqb_spec (row_id r) n); [lia | reflexivity].
Qed.

Lemma finalize_fresh (env : Env) (o : Order) (status : string) (d : DB) :
  wf_db d ->
  finalize env status (next_id d)
           (orders d ++ [new_row env o (next_id d) "pending"]) =
  orders d ++ [new_row env o (next_id d) (stored_status env status)].
Proof.
  intros Hwf. unfold finalize, stored_status.
  destruct (update_error env); [reflexivity|].
  rewrite map_app, (set_status_older _ _ _ Hwf). simpl.
  unfold set_status. simpl. rewrite Z.eqb_refl. reflexivity.
Qed.

Lemma finalize_ids (env : Env) (status : string) (id : Z) (rows : list Row) :
  map row_id (finalize env status id rows) = map row_id rows.
Proof.
  unfold finalize. destruct (update_error env); [reflexivity|].
  rewrite map_map. apply map_ext. intros r. unfold set_status.
  destruct (row_id r =? id); reflexivity.
Qed.

(** The whole decision table of [CreateOrder] on a payload that decodes. *)
Lemma CreateOrder_run (env : Env) (s : OrderService) (o : Order) (w : World) :
  CreateOrder env s (mkRequest (Json o)) w =
  let id := next_id (db w) in
  let get := HttpGet (user_url s (UserID o)) in
  let ins := insert_call env o in
  let post := HttpPost (payment_url s) id (Amount o) in
  let rows := orders (db w) ++ [new_row env o id "pending"] in
  let paid :=
    Ret (mkResponse StatusOK "application/json"
           (OrderJSON (mkOrder id (UserID o) (Product o) (Quantity o)
                               (Amount o) "completed" (now env))))
        (inserted env o w (finalize env "completed" id rows)
                  [get; ins; post; DbUpdate "completed" id]) in
  let unpaid (err : string) :=
    Ret (http_Error err StatusInternalServerError)
        (inserted env o w (finalize env "payment_failed" id rows)
                  [get; ins; post; DbUpdate "payment_failed" id]) in
  let pay :=
    match post_peer env (payment_url s) id (Amount o) with
    | Refuses err => unpaid ("payment service unavailable: " ++ err)%string
    | Answers code => if code =? StatusOK then paid else unpaid "payment failed"
    | Silent => Hang (inserted env o w rows [get; ins; post])
    end in
  let insert :=
    match insert_error env with
    | Some err =>
        Ret (http_Error err StatusInternalServerError) (called w [get; ins])
    | None => pay
    end in
  match get_peer env (user_url s (UserID o)) with
  | Refuses err =>
      Ret (http_Error ("user service unavailable: " ++ err)%string
                      StatusBadRequest)
          (called w [get])
  | Answers code =>
      if code =? StatusOK then insert
      else Ret (http_Error "user not found" StatusBadRequest) (called w [get])
  | Silent => Hang (called w [get])
  end.
Proof.
  unfold CreateOrder.
  cbn [ReqBody Decode set_ID set_Status set_CreatedAt
       ID UserID Product Quantity Amount Status CreatedAt].
  unfold bind at 1. rewrite validateUser_run.
  destruct (get_peer env (user_url s (UserID o))) as [err|code|];
    cbn zeta; try reflexivity.
  destruct (code =? StatusOK); [|reflexivity].
  unfold bind at 1. rewrite db_insert_run.
  destruct (insert_error env) as [err|].
  { unfold ret, called; cbn [db log]. rewrite <- app_assoc. reflexivity. }
  unfold bind at 1. rewrite processPayment_run.
  cbn [db log inserted called next_id orders].
  destruct (post_peer env (payment_url s) (next_id (db w)) (Amount o))
    as [err|code'|].
  - unfold bind, ret, called, inserted. rewrite db_update_run.
    cbn [db log next_id orders]. rewrite <- !app_assoc. reflexivity.
  - destruct (code' =? StatusOK); unfold bind, ret, called, inserted;
      rewrite db_update_run; cbn [db log next_id orders];
      rewrite <- !app_assoc; reflexivity.
  - unfold called, inserted. cbn [db log next_id orders].
    rewrite <- !app_assoc. reflexivity.
Qed.

Lemma CreateOrder_malformed (env : Env) (s : OrderService) (err : string)
    (w : World) :
  CreateOrder env s (mkRequest (Malformed err)) w =
  Ret (http_Error err StatusBadRequest) w.
Proof. reflexivity. Qed.

(** ** Properties of the orchestration *)

Import Scenario.

(** *** Payment failure *)

(** C1, as the specification words it, at a declined payment: the user is
    known, the INSERT goes through and the payment peer answers 402, yet the
    response is not a 200 carrying the order with status payment_failed: it
    is a 500 carrying the text of the payment error. *)
Lemma payment_failure_200_refuted :
  succeeds (get_peer declined (user_url svc (UserID book))) /\
  insert_error declined = None /\
  fails (post_peer declined (payment_url svc) (next_id (db w0)) (Amount book)) /\
  ~ (exists resp w' o',
       CreateOrder declined svc (request book) w0 = Ret resp w' /\
       Code resp = StatusOK /\
       Payload resp = OrderJSON o' /\
       Status o' = "payment_failed") /\
  value_of (CreateOrder declined svc (request book) w0) =
    Some (http_Error "payment failed" StatusInternalServerError).
Proof.
  split; [reflexivity|]. split; [reflexivity|].
  split; [vm_compute; discriminate|]. split; [|reflexivity].
  intros (resp & w' & o' & Hrun & Hcode & _).
  vm_compute in Hrun. injection Hrun as <- _.
  vm_compute in Hcode. discriminate Hcode.
Qed.

(** C1 (amended): when user validation and the pending INSERT succeed but the
    payment call fails (transport error or non-200), the handler sends
    [UPDATE ... status = payment_failed] for the new order and answers with
    HTTP 500 whose body is the payment error text, never an order.  The
    stored status is payment_failed when the store applies the UPDATE and
    stays pending when it rejects it. *)
Theorem payment_failure_is_500 (env : Env) (s : OrderService) (o : Order)
    (w : World) :
  wf_db (db w) ->
  succeeds (get_peer env (user_url s (UserID o))) ->
  insert_error env = None ->
  fails (post_peer env (payment_url s) (next_id (db w)) (Amount o)) ->
  let id := next_id (db w) in
  exists msg w',
    CreateOrder env s (request o) w =
      Ret (http_Error msg StatusInternalServerError) w' /\
    (msg = "payment failed" \/
     exists err, msg = ("payment service unavailable: " ++ err)%string) /\
    log w' = log w ++ [HttpGet (user_url s (UserID o)); insert_call env o;
                       HttpPost (payment_url s) id (Amount o);
                       DbUpdate "payment_failed" id] /\
    orders (db w') =
      orders (db w) ++ [new_row env o id (stored_status env "payment_failed")] /\
    (update_error env = None ->
     orders (db w') = orders (db w) ++ [new_row env o id "payment_failed"]).
Proof.
  intros Hwf Huser Hins Hpay id. unfold request.
  rewrite CreateOrder_run. cbn zeta. rewrite Huser, Hins.
  change (StatusOK =? StatusOK) with true. cbn iota.
  assert (Hst : update_error env = None ->
                stored_status env "payment_failed" = "payment_failed").
  { unfold stored_status. intros ->. reflexivity. }
  destruct (post_peer env (payment_url s) (next_id (db w)) (Amount o))
    as [err|code|]; cbn in Hpay; [| |contradiction].
  - eexists _, _. split; [reflexivity|]. cbn [log db inserted orders].
    rewrite finalize_fresh by assumption.
    split; [right; exists err; reflexivity|].
    split; [reflexivity|]. split; [reflexivity|].
    intros H. rewrite Hst by assumption. reflexivity.
  - destruct (Z.eqb_spec code StatusOK) as [->|_]; [contradiction|].
    eexists _, _. split; [reflexivity|]. cbn [log db inserted orders].
    rewrite finalize_fresh by assumption.
    split; [left; reflexivity|].
    split; [reflexivity|]. split; [reflexivity|].
    intros H. rewrite Hst by assumption. reflexivity.
Qed.

Lemma payment_failure_is_500_witness :
  exists msg w',
    CreateOrder declined svc (request book) w0 =
      Ret (http_Error msg StatusInternalServerError) w' /\
    (msg = "payment failed" \/
     exists err, msg = ("payment service unavailable: " ++ err)%string) /\
    log w' = log w0 ++ [HttpGet (user_url svc (UserID book));
                        insert_call declined book;
                        HttpPost (payment_url svc) 1 (Amount book);
                        DbUpdate "payment_failed" 1] /\
    orders (db w') =
      orders (db w0) ++
      [new_row declined book 1 (stored_status declined "payment_failed")] /\
    (update_error declined = None ->
     orders (db w') = orders (db w0) ++ [new_row declined book 1 "payment_failed"]).
Proof.
  apply (payment_failure_is_500 declined svc book w0).
  - constructor.
  - reflexivity.
  - reflexivity.
  - vm_compute. discriminate.
Defined.

(** *** Input checking *)

(** C2, as the specification words it, at a payload with an empty product and
    a negative amount for a known user: the request is not rejected with a
    400 before any side effect; the handler calls both peers, writes the
    order and answers 200.  At a payload whose user identifier is -3 the
    handler still asks the User Directory about user -3. *)
Lemma field_checks_refuted :
  Product cheap = "" /\
  PrimFloat.ltb (Amount cheap) 0%float = true /\
  ~ (exists resp,
       CreateOrder happy svc (request cheap) w0 = Ret resp w0 /\
       Code resp = StatusBadRequest) /\
  (exists resp w',
     CreateOrder happy svc (request cheap) w0 = Ret resp w' /\
     Code resp = StatusOK /\
     orders (db w') = [new_row happy cheap 1 "completed"] /\
     map step_of (log w') = [Validate; Insert; Pay; Finalize]) /\
  UserID nobody <= 0 /\
  log (world_of (CreateOrder happy svc (request nobody) w0)) =
    [HttpGet "http://users:8081/users/get?id=-3"].
Proof.
  split; [reflexivity|]. split; [reflexivity|]. split; [|split].
  - intros (resp & Hrun & _). vm_compute in Hrun. discriminate Hrun.
  - eexists _, _. split; [vm_compute; reflexivity|]. repeat split.
  - split; [vm_compute; discriminate | reflexivity].
Qed.

(** C2 (amended): a request whose payload does not parse fails with HTTP 400
    before any side effect: no outbound call is made and the store is not
    written.  No field of a payload that parses is checked: whatever the
    user identifier, amount and product hold, the handler goes on to ask the
    User Directory about that user identifier. *)
Theorem unparseable_rejected_first (env : Env) (s : OrderService)
    (r : Request) (w : World) :
  (forall err,
     Decode (ReqBody r) = inl err ->
     CreateOrder env s r w = Ret (http_Error err StatusBadRequest) w) /\
  (forall o,
     Decode (ReqBody r) = inr o ->
     exists calls,
       log (world_of (CreateOrder env s r w)) =
       log w ++ HttpGet (user_url s (UserID o)) :: calls).
Proof.
  destruct r as [[err|o]]; cbn [ReqBody Decode]; split.
  - intros ? [= <-]. reflexivity.
  - intros ? [=].
  - intros ? [=].
  - intros ? [= <-]. rewrite CreateOrder_run. cbn zeta.
    destruct (get_peer env (user_url s (UserID o))) as [e|code|];
      [eexists; reflexivity| |eexists; reflexivity].
    destruct (code =? StatusOK); [|eexists; reflexivity].
    destruct (insert_error env); [eexists; reflexivity|].
    destruct (post_peer env (payment_url s) (next_id (db w)) (Amount o))
      as [e|code'|]; [eexists; reflexivity| |eexists; reflexivity].
    destruct (code' =? StatusOK); eexists; reflexivity.
Qed.

Lemma unparseable_rejected_first_witness :
  CreateOrder happy svc (mkRequest (Malformed "unexpected EOF")) w0 =
    Ret (http_Error "unexpected EOF" StatusBadRequest) w0 /\
  exists calls,
    log (world_of (CreateOrder happy svc (request cheap) w0)) =
    log w0 ++ HttpGet (user_url svc (UserID cheap)) :: calls.
Proof.
  split.
  - apply (proj1 (unparseable_rejected_first happy svc
                    (mkRequest (Malformed "unexpected EOF")) w0)).
    reflexivity.
  - apply (proj2 (unparseable_rejected_first happy svc (request cheap) w0)).
    reflexivity.
Defined.

(** *** User validation *)

(** C3: when the user lookup fails (the User Directory is unreachable or
    answers with a status other than 200), the response is HTTP 400, the
    store is left as it was, and the lookup is the only call made. *)
Theorem user_lookup_failure_persists_nothing (env : Env) (s : OrderService)
    (o : Order) (w : World) :
  fails (get_peer env (user_url s (UserID o))) ->
  exists resp w',
    CreateOrder env s (request o) w = Ret resp w' /\
    Code resp = StatusBadRequest /\
    (forall o', Payload resp <> OrderJSON o') /\
    db w' = db w /\
    log w' = log w ++ [HttpGet (user_url s (UserID o))].
Proof.
  intros Hfail. unfold request. rewrite CreateOrder_run. cbn zeta.
  destruct (get_peer env (user_url s (UserID o))) as [err|code|];
    cbn in Hfail; [| |contradiction].
  - eexists _, _. repeat split. discriminate.
  - destruct (Z.eqb_spec code StatusOK) as [->|_]; [contradiction|].
    eexists _, _. repeat split. discriminate.
Qed.

Lemma user_lookup_failure_persists_nothing_witness :
  exists resp w',
    CreateOrder happy svc (request stranger) w0 = Ret resp w' /\
    Code resp = StatusBadRequest /\
    (forall o', Payload resp <> OrderJSON o') /\
    db w' = db w0 /\
    log w' = log w0 ++ [HttpGet (user_url svc (UserID stranger))].
Proof.
  apply (user_lookup_failure_persists_nothing happy svc stranger w0).
  vm_compute. discriminate.
Defined.

(** *** Persistence failure *)

(** C4: when user validation succeeds and the pending INSERT fails, the
    response is HTTP 500 carrying the store's error, the store is unchanged,
    and the calls made are the lookup and the INSERT only: the Payment
    Processor is not contacted. *)
Theorem insert_failure_skips_payment (env : Env) (s : OrderService)
    (o : Order) (w : World) (err : string) :
  succeeds (get_peer env (user_url s (UserID o))) ->
  insert_error env = Some err ->
  exists w' calls,
    CreateOrder env s (request o) w =
      Ret (http_Error err StatusInternalServerError) w' /\
    db w' = db w /\
    log w' = log w ++ calls /\
    calls = [HttpGet (user_url s (UserID o)); insert_call env o] /\
    count is_post calls = 0%nat.
Proof.
  intros Huser Hins. unfold request. rewrite CreateOrder_run. cbn zeta.
  rewrite Huser, Hins. change (StatusOK =? StatusOK) with true. cbn iota.
  eexists _, _. repeat split.
Qed.

Lemma insert_failure_skips_payment_witness :
  exists w' calls,
    CreateOrder store_down svc (request book) w0 =
      Ret (http_Error "pq: connection lost" StatusInternalServerError) w' /\
    db w' = db w0 /\
    log w' = log w0 ++ calls /\
    calls = [HttpGet (user_url svc (UserID book)); insert_call store_down book] /\
    count is_post calls = 0%nat.
Proof.
  apply (insert_failure_skips_payment store_down svc book w0);
    reflexivity.
Defined.

(** *** The successful path *)

(** C5, as the specification words it, at a store that rejects the UPDATE:
    the user exists, the INSERT succeeds and the payment call succeeds, the
    response is a 200 with status completed, and yet the stored order is not
    updated to completed: it stays pending. *)
Lemma stored_completed_refuted :
  succeeds (get_peer update_lost (user_url svc (UserID book))) /\
  insert_error update_lost = None /\
  succeeds (post_peer update_lost (payment_url svc) (next_id (db w0))
                      (Amount book)) /\
  option_map Code (value_of (CreateOrder update_lost svc (request book) w0)) =
    Some StatusOK /\
  orders (db (world_of (CreateOrder update_lost svc (request book) w0))) =
    [new_row update_lost book 1 "pending"] /\
  ~ (exists row,
       In row (orders (db (world_of
                 (CreateOrder update_lost svc (request book) w0)))) /\
       row_status row = "completed").
Proof.
  repeat split.
  intros (row & [<-|[]] & Hst). discriminate Hst.
Qed.

(** C5 (amended): when the user exists, the INSERT succeeds and the payment
    call succeeds, the steps run in this order: the lookup; the INSERT, which
    stores the order with status pending and the current time under the
    identifier the store assigns; the payment call, made while the order is
    stored as pending; the UPDATE of that order to completed.  The response
    is HTTP 200 with the order, status completed.  The handler ignores the
    result of the UPDATE: the stored order reads completed when the store
    applies it and stays pending when the store rejects it. *)
Theorem successful_order_completes (env : Env) (s : OrderService) (o : Order)
    (w : World) :
  wf_db (db w) ->
  succeeds (get_peer env (user_url s (UserID o))) ->
  insert_error env = None ->
  succeeds (post_peer env (payment_url s) (next_id (db w)) (Amount o)) ->
  let id := next_id (db w) in
  exists w1 w2 w3 w',
    validateUser env s (UserID o) w = Ret None w1 /\
    db w1 = db w /\
    db_insert env (UserID o) (Product o) (Quantity o) (Amount o)
              "pending" (now env) w1 = Ret (inr id) w2 /\
    orders (db w2) = orders (db w) ++ [new_row env o id "pending"] /\
    processPayment env s id (Amount o) w2 = Ret None w3 /\
    db w3 = db w2 /\
    db_update env "completed" id w3 = Ret tt w' /\
    CreateOrder env s (request o) w =
      Ret (mkResponse StatusOK "application/json"
             (OrderJSON (mkOrder id (UserID o) (Product o) (Quantity o)
                                 (Amount o) "completed" (now env))))
          w' /\
    log w' = log w ++ [HttpGet (user_url s (UserID o)); insert_call env o;
                       HttpPost (payment_url s) id (Amount o);
                       DbUpdate "completed" id] /\
    (update_error env = None ->
     orders (db w') = orders (db w) ++ [new_row env o id "completed"]) /\
    (update_error env <> None ->
     orders (db w') = orders (db w) ++ [new_row env o id "pending"]).
Proof.
  intros Hwf Huser Hins Hpay id. subst id. unfold request.
  rewrite CreateOrder_run, validateUser_run. cbn zeta. rewrite Huser, Hins.
  change (StatusOK =? StatusOK) with true. cbn iota.
  eexists _, _, _, _.
  split; [reflexivity|]. split; [reflexivity|].
  rewrite db_insert_run, Hins. split; [reflexivity|]. split; [reflexivity|].
  rewrite processPayment_run. cbn [db inserted called next_id].
  rewrite Hpay. change (StatusOK =? StatusOK) with true. cbn iota.
  split; [reflexivity|]. split; [reflexivity|].
  rewrite db_update_run. cbn [db log inserted called next_id orders].
  rewrite <- !app_assoc. cbn [app].
  split; [reflexivity|]. split; [reflexivity|]. split; [reflexivity|].
  rewrite finalize_fresh by assumption. unfold stored_status.
  destruct (update_error env); split; intros H;
    try reflexivity; try discriminate H; contradiction H; reflexivity.
Qed.

Lemma successful_order_completes_witness :
  exists w1 w2 w3 w',
    validateUser update_lost svc (UserID book) w0 = Ret None w1 /\
    db w1 = db w0 /\
    db_insert update_lost (UserID book) (Product book) (Quantity book)
              (Amount book) "pending" (now update_lost) w1 =
      Ret (inr 1) w2 /\
    orders (db w2) = orders (db w0) ++ [new_row update_lost book 1 "pending"] /\
    processPayment update_lost svc 1 (Amount book) w2 = Ret None w3 /\
    db w3 = db w2 /\
    db_update update_lost "completed" 1 w3 = Ret tt w' /\
    CreateOrder update_lost svc (request book) w0 =
      Ret (mkResponse StatusOK "application/json"
             (OrderJSON (mkOrder 1 (UserID book) (Product book)
                                 (Quantity book) (Amount book) "completed"
                                 (now update_lost))))
          w' /\
    log w' = log w0 ++ [HttpGet (user_url svc (UserID book));
                        insert_call update_lost book;
                        HttpPost (payment_url svc) 1 (Amount book);
                        DbUpdate "completed" 1] /\
    (update_error update_lost = None ->
     orders (db w') = orders (db w0) ++ [new_row update_lost book 1 "completed"]) /\
    (update_error update_lost <> None ->
     orders (db w') = orders (db w0) ++ [new_row update_lost book 1 "pending"]).
Proof.
  apply (successful_order_completes update_lost svc book w0).
  - constructor.
  - reflexivity.
  - reflexivity.
  - reflexivity.
Defined.

(** *** No deduplication *)

(** An invocation that gets past the INSERT: the row it adds, the calls it
    makes and the order it may return all carry the next value of the
    sequence. *)
Lemma CreateOrder_stored (env : Env) (s : OrderService) (o : Order)
    (w : World) :
  wf_db (db w) ->
  succeeds (get_peer env (user_url s (UserID o))) ->
  insert_error env = None ->
  let id := next_id (db w) in
  let res := CreateOrder env s (request o) w in
  exists st calls,
    orders (db (world_of res)) = orders (db w) ++ [new_row env o id st] /\
    next_id (db (world_of res)) = id + 1 /\
    wf_db (db (world_of res)) /\
    log (world_of res) =
      log w ++ HttpGet (user_url s (UserID o)) :: insert_call env o ::
               HttpPost (payment_url s) id (Amount o) :: calls /\
    (calls = [] \/ exists st', calls = [DbUpdate st' id]) /\
    (forall resp w' o',
       res = Ret resp w' -> Payload resp = OrderJSON o' -> ID o' = id).
Proof.
  intros Hwf Huser Hins. cbn zeta. unfold request.
  rewrite CreateOrder_run. cbn zeta. rewrite Huser, Hins.
  change (StatusOK =? StatusOK) with true. cbn iota.
  assert (Hwf' : forall st,
            wf_db (mkDB (orders (db w) ++ [new_row env o (next_id (db w)) st])
                        (next_id (db w) + 1))).
  { intros st. unfold wf_db. cbn [orders next_id]. apply Forall_app. split.
    - eapply Forall_impl; [|exact Hwf]. cbn. intros; lia.
    - constructor; [cbn; lia | constructor]. }
  destruct (post_peer env (payment_url s) (next_id (db w)) (Amount o))
    as [e|code|]; [| destruct (code =? StatusOK) |];
    cbn [world_of db log inserted orders next_id];
    rewrite ?finalize_fresh by assumption;
    eexists _, _; (split; [reflexivity|]); (split; [reflexivity|]);
    (split; [apply Hwf'|]); (split; [reflexivity|]);
    (split; [first [left; reflexivity | right; eexists; reflexivity]|]).
  - intros resp w' o' [= <- _] [=].
  - intros resp w' o' [= <- _] [= <-]. reflexivity.
  - intros resp w' o' [= <- _] [=].
  - intros resp w' o' [=].
Qed.

(** C7: two invocations with the same payload, each passing user validation
    and the INSERT, leave two new rows in the table, both holding the
    payload's user, product, quantity and amount, under two distinct
    identifiers.  Each identifier is the value of the store's sequence at the
    time of its INSERT, whatever [id] the payload carried, and neither is the
    identifier of an order stored before.  It is that identifier, not the
    payload's, that the invocation sends to the payment service, names in
    its UPDATE and returns in its response. *)
Theorem no_deduplication (e1 e2 : Env) (s : OrderService) (o : Order)
    (w : World) :
  wf_db (db w) ->
  succeeds (get_peer e1 (user_url s (UserID o))) ->
  insert_error e1 = None ->
  succeeds (get_peer e2 (user_url s (UserID o))) ->
  insert_error e2 = None ->
  let r1 := CreateOrder e1 s (request o) w in
  let w1 := world_of r1 in
  let r2 := CreateOrder e2 s (request o) w1 in
  let w2 := world_of r2 in
  exists id1 id2 st1 st2 calls1 calls2,
    orders (db w2) =
      orders (db w) ++ [new_row e1 o id1 st1; new_row e2 o id2 st2] /\
    map row_id (orders (db w2)) = map row_id (orders (db w)) ++ [id1; id2] /\
    id1 <> id2 /\
    id1 = next_id (db w) /\
    id2 = next_id (db w1) /\
    ~ In id1 (map row_id (orders (db w))) /\
    ~ In id2 (map row_id (orders (db w))) /\
    log w1 = log w ++ calls1 /\
    log w2 = log w1 ++ calls2 /\
    In (HttpPost (payment_url s) id1 (Amount o)) calls1 /\
    In (HttpPost (payment_url s) id2 (Amount o)) calls2 /\
    (forall url id amount, In (HttpPost url id amount) calls1 -> id = id1) /\
    (forall url id amount, In (HttpPost url id amount) calls2 -> id = id2) /\
    (forall st id, In (DbUpdate st id) calls1 -> id = id1) /\
    (forall st id, In (DbUpdate st id) calls2 -> id = id2) /\
    (forall resp w' o',
       r1 = Ret resp w' -> Payload resp = OrderJSON o' -> ID o' = id1) /\
    (forall resp w' o',
       r2 = Ret resp w' -> Payload resp = OrderJSON o' -> ID o' = id2).
Proof.
  intros Hwf Hu1 Hi1 Hu2 Hi2 r1 w1 r2 w2.
  destruct (CreateOrder_stored e1 s o w Hwf Hu1 Hi1)
    as (st1 & c1 & Hrows1 & Hnext1 & Hwf1 & Hlog1 & Hc1 & Hresp1).
  fold r1 in Hrows1, Hnext1, Hwf1, Hlog1, Hresp1.
  fold w1 in Hrows1, Hnext1, Hwf1, Hlog1.
  destruct (CreateOrder_stored e2 s o w1 Hwf1 Hu2 Hi2)
    as (st2 & c2 & Hrows2 & Hnext2 & _ & Hlog2 & Hc2 & Hresp2).
  fold r2 in Hrows2, Hnext2, Hlog2, Hresp2. fold w2 in Hrows2, Hnext2, Hlog2.
  assert (Hold : forall n, In n (map row_id (orders (db w))) ->
                           n < next_id (db w)).
  { intros n Hn. apply in_map_iff in Hn as (r & <- & Hr).
    unfold wf_db in Hwf. rewrite Forall_forall in Hwf. auto. }
  assert (Hposts : forall (env : Env) (n : Z) (c : list Call),
            (c = [] \/ exists st', c = [DbUpdate st' n]) ->
            let calls := HttpGet (user_url s (UserID o)) :: insert_call env o ::
                         HttpPost (payment_url s) n (Amount o) :: c in
            (forall url id amount, In (HttpPost url id amount) calls -> id = n) /\
            (forall st id, In (DbUpdate st id) calls -> id = n)).
  { intros env n c Hc. cbn zeta. unfold insert_call. split.
    - intros url id amount [H|[H|[H|H]]]; try discriminate H.
      + injection H as _ <- _. reflexivity.
      + destruct Hc as [->|(st' & ->)]; [destruct H|].
        destruct H as [H|[]]. discriminate H.
    - intros st id [H|[H|[H|H]]]; try discriminate H.
      destruct Hc as [->|(st' & ->)]; [destruct H|].
      destruct H as [H|[]]. injection H as _ <-. reflexivity. }
  destruct (Hposts e1 (next_id (db w)) c1 Hc1) as [Hp1 Hd1].
  destruct (Hposts e2 (next_id (db w1)) c2 Hc2) as [Hp2 Hd2].
  exists (next_id (db w)), (next_id (db w1)), st1, st2.
  eexists _, _.
  split; [rewrite Hrows2, Hrows1, <- app_assoc; reflexivity|].
  split.
  { rewrite Hrows2, Hrows1, !map_app, <- app_assoc. reflexivity. }
  split; [lia|]. split; [reflexivity|]. split; [reflexivity|].
  split; [intros Hin; apply Hold in Hin; lia|].
  split; [intros Hin; apply Hold in Hin; lia|].
  split; [exact Hlog1|]. split; [exact Hlog2|].
  split; [right; right; left; reflexivity|].
  split; [right; right; left; reflexivity|].
  split; [exact Hp1|]. split; [exact Hp2|].
  split; [exact Hd1|]. split; [exact Hd2|].
  split; [exact Hresp1 | exact Hresp2].
Qed.

Lemma no_deduplication_witness :
  let r1 := CreateOrder happy svc (request forged) w0 in
  let w1 := world_of r1 in
  let r2 := CreateOrder declined svc (request forged) w1 in
  let w2 := world_of r2 in
  exists id1 id2 st1 st2 calls1 calls2,
    orders (db w2) =
      orders (db w0) ++
      [new_row happy forged id1 st1; new_row declined forged id2 st2] /\
    map row_id (orders (db w2)) = map row_id (orders (db w0)) ++ [id1; id2] /\
    id1 <> id2 /\
    id1 = next_id (db w0) /\
    id2 = next_id (db w1) /\
    ~ In id1 (map row_id (orders (db w0))) /\
    ~ In id2 (map row_id (orders (db w0))) /\
    log w1 = log w0 ++ calls1 /\
    log w2 = log w1 ++ calls2 /\
    In (HttpPost (payment_url svc) id1 (Amount forged)) calls1 /\
    In (HttpPost (payment_url svc) id2 (Amount forged)) calls2 /\
    (forall url id amount, In (HttpPost url id amount) calls1 -> id = id1) /\
    (forall url id amount, In (HttpPost url id amount) calls2 -> id = id2) /\
    (forall st id, In (DbUpdate st id) calls1 -> id = id1) /\
    (forall st id, In (DbUpdate st id) calls2 -> id = id2) /\
    (forall resp w' o',
       r1 = Ret resp w' -> Payload resp = OrderJSON o' -> ID o' = id1) /\
    (forall resp w' o',
       r2 = Ret resp w' -> Payload resp = OrderJSON o' -> ID o' = id2).
Proof.
  apply (no_deduplication happy declined svc forged w0).
  - constructor.
  - reflexivity.
  - reflexivity.
  - reflexivity.
  - reflexivity.
Defined.

(** *** Client-supplied id, status and created_at *)

Lemma decode_raw_inr (p : RawOrder) (o : Order) :
  decode_raw p = inr o ->
  raw_body p = Json o /\
  UserID o = taken 0 (raw_user_id p) /\
  Product o = taken "" (raw_product p) /\
  Quantity o = taken 0 (raw_quantity p) /\
  Amount o = taken 0%float (raw_amount p).
Proof.
  intros H. unfold raw_body. rewrite H. split; [reflexivity|].
  unfold decode_raw in H.
  destruct (fits (raw_id p) && fits (raw_user_id p) && fits (raw_product p) &&
            fits (raw_quantity p) && fits (raw_amount p) &&
            fits (raw_status p) && fits (raw_created_at p));
    [|discriminate H].
  injection H as <-. repeat split.
Qed.

Import Payloads.

(** C10, as the specification words it, at payloads that differ from
    [plain] only in the id, the status or the created_at the client sent:
    [plain] is answered with a 200 and an order is stored, while an id sent
    as a string, a status sent as a number or a created_at that is no
    timestamp is answered with a 400 and nothing is stored.  The value the
    client puts into these fields does influence the response. *)
Lemma client_fields_decide_refuted :
  same_order_fields plain quoted_id /\
  same_order_fields plain numeric_status /\
  same_order_fields plain today /\
  option_map Code (value_of (CreateOrder happy svc (raw_request plain) w0)) =
    Some StatusOK /\
  option_map Code (value_of (CreateOrder happy svc (raw_request quoted_id) w0)) =
    Some StatusBadRequest /\
  option_map Code
    (value_of (CreateOrder happy svc (raw_request numeric_status) w0)) =
    Some StatusBadRequest /\
  option_map Code (value_of (CreateOrder happy svc (raw_request today) w0)) =
    Some StatusBadRequest /\
  CreateOrder happy svc (raw_request plain) w0 <>
  CreateOrder happy svc (raw_request quoted_id) w0 /\
  orders (db (world_of (CreateOrder happy svc (raw_request plain) w0))) <>
  orders (db (world_of (CreateOrder happy svc (raw_request quoted_id) w0))).
Proof.
  repeat split; vm_compute; discriminate.
Qed.

(** C10 (amended): two payloads that both decode and agree on user_id,
    product, quantity and amount, and so differ at most in the id, status
    and created_at the client sent, make the handler behave identically:
    same calls, same store, same response.  What the handler stores and
    returns never comes from these three fields: the row it adds carries the
    store-assigned identifier, the handler's clock reading and a status the
    handler wrote (pending, later completed or payment_failed), and so does
    the order in a response, with status completed.  A payload that the
    decoder rejects, as it does when one of these fields holds a value of
    the wrong type, is answered with 400 before any side effect. *)
Theorem client_fields_ignored (env : Env) (s : OrderService)
    (p1 p2 : RawOrder) (w : World) :
  wf_db (db w) ->
  same_order_fields p1 p2 ->
  let res := CreateOrder env s (raw_request p1) w in
  ((exists o1, decode_raw p1 = inr o1) ->
   (exists o2, decode_raw p2 = inr o2) ->
   res = CreateOrder env s (raw_request p2) w) /\
  ((exists o1, decode_raw p1 = inr o1) ->
   exists new calls,
     orders (db (world_of res)) = orders (db w) ++ new /\
     log (world_of res) = log w ++ calls /\
     Forall (fun row => row_id row = next_id (db w) /\
                        row_created_at row = now env /\
                        valid_status (row_status row)) new /\
     Forall (fun c => match c with
                      | DbInsert _ _ _ _ st t => st = "pending" /\ t = now env
                      | DbUpdate st id => terminal st /\ id = next_id (db w)
                      | _ => True
                      end) calls /\
     forall resp w' o',
       res = Ret resp w' -> Payload resp = OrderJSON o' ->
       ID o' = next_id (db w) /\ Status o' = "completed" /\
       CreatedAt o' = now env) /\
  (forall err,
     decode_raw p1 = inl err ->
     res = Ret (http_Error err StatusBadRequest) w) /\
  (fits (raw_id p1) && fits (raw_status p1) && fits (raw_created_at p1) = false ->
   res = Ret (http_Error (complaint p1) StatusBadRequest) w).
Proof.
  intros Hwf (Hu & Hp & Hq & Ha). cbn zeta. split; [|split; [|split]].
  - intros (o1 & H1) (o2 & H2).
    apply decode_raw_inr in H1 as (Hb1 & Hu1 & Hp1 & Hq1 & Ha1).
    apply decode_raw_inr in H2 as (Hb2 & Hu2 & Hp2 & Hq2 & Ha2).
    unfold raw_request. rewrite Hb1, Hb2, !CreateOrder_run. cbn zeta.
    unfold insert_call, new_row.
    rewrite Hu1, Hp1, Hq1, Ha1, Hu2, Hp2, Hq2, Ha2, Hu, Hp, Hq, Ha.
    reflexivity.
  - intros (o & H). apply decode_raw_inr in H as (Hb & _).
    unfold raw_request. rewrite Hb, CreateOrder_run. cbn zeta.
    assert (Hst : forall st, terminal st -> valid_status (stored_status env st)).
    { intros st Ht. unfold stored_status, valid_status, terminal in *.
      destruct (update_error env); intuition. }
    destruct (get_peer env (user_url s (UserID o))) as [e|code|];
      [| destruct (code =? StatusOK);
         [ destruct (insert_error env);
           [| destruct (post_peer env (payment_url s) (next_id (db w))
                                  (Amount o))
                as [e|code'|]; [| destruct (code' =? StatusOK) |] ] |] |].
    all: cbn [world_of db log inserted called orders].
    all: rewrite ?finalize_fresh by assumption.
    1, 2, 7, 8: eexists [], _;
      (split; [symmetry; apply app_nil_r|]); (split; [reflexivity|]);
      (split; [apply Forall_nil|]);
      (split; [unfold insert_call;
               repeat first [apply Forall_cons | apply Forall_nil];
               cbn; auto|]);
      first [ intros resp w' o' [= <- _] [=] | intros resp w' o' [=] ].
    all: eexists [_], _; (split; [reflexivity|]); (split; [reflexivity|]);
      (split; [apply Forall_cons; [|apply Forall_nil]; cbn;
               (split; [reflexivity|]); (split; [reflexivity|]);
               first [ apply Hst; unfold terminal; auto
                     | left; reflexivity ]|]);
      (split; [unfold insert_call;
               repeat first [apply Forall_cons | apply Forall_nil];
               cbn; unfold terminal; auto|]).
    + intros resp w' o' [= <- _] [=].
    + intros resp w' o' [= <- _] [= <-]. repeat split.
    + intros resp w' o' [= <- _] [=].
    + intros resp w' o' [=].
  - intros err H. unfold raw_request, raw_body. rewrite H. reflexivity.
  - intros H. unfold raw_request, raw_body, decode_raw.
    destruct (fits (raw_id p1)), (fits (raw_status p1)),
      (fits (raw_created_at p1)); try discriminate H;
      rewrite ?andb_false_r; reflexivity.
Qed.

Lemma client_fields_ignored_witness :
  let res := CreateOrder happy svc (raw_request plain) w0 in
  ((exists o1, decode_raw plain = inr o1) ->
   (exists o2, decode_raw dressed = inr o2) ->
   res = CreateOrder happy svc (raw_request dressed) w0) /\
  ((exists o1, decode_raw plain = inr o1) ->
   exists new calls,
     orders (db (world_of res)) = orders (db w0) ++ new /\
     log (world_of res) = log w0 ++ calls /\
     Forall (fun row => row_id row = next_id (db w0) /\
                        row_created_at row = now happy /\
                        valid_status (row_status row)) new /\
     Forall (fun c => match c with
                      | DbInsert _ _ _ _ st t => st = "pending" /\ t = now happy
                      | DbUpdate st id => terminal st /\ id = next_id (db w0)
                      | _ => True
                      end) calls /\
     forall resp w' o',
       res = Ret resp w' -> Payload resp = OrderJSON o' ->
       ID o' = next_id (db w0) /\ Status o' = "completed" /\
       CreatedAt o' = now happy) /\
  (forall err,
     decode_raw plain = inl err ->
     res = Ret (http_Error err StatusBadRequest) w0) /\
  (fits (raw_id plain) && fits (raw_status plain) &&
   fits (raw_created_at plain) = false ->
   res = Ret (http_Error (complaint plain) StatusBadRequest) w0).
Proof.
  apply (client_fields_ignored happy svc plain dressed w0).
  - constructor.
  - repeat split.
Defined.

(** *** Side effects and their order *)

(** C8, as the specification words it, at a request whose body does not
    parse: the invocation makes no INSERT and no validation call, not exactly
    one of each. *)
Lemma exactly_one_insert_refuted :
  let w' := world_of (CreateOrder happy svc (mkRequest (Malformed "EOF")) w0) in
  log w0 = [] /\
  count is_insert (log w') <> 1%nat /\
  count is_get (log w') <> 1%nat.
Proof. repeat split; vm_compute; discriminate. Qed.

(** C8 (amended): the calls of one invocation are an initial segment of
    Validate, Insert, Pay, Finalize, in that order: at most one user
    validation call, at most one INSERT, at most one payment call and at most
    one UPDATE, so no call is ever repeated.  A payload that parses gets
    exactly one validation call, and exactly one INSERT once validation
    succeeded; an invocation without INSERT leaves the store as it was. *)
Theorem side_effect_budget (env : Env) (s : OrderService) (r : Request)
    (w : World) :
  let w' := world_of (CreateOrder env s r w) in
  exists calls n,
    log w' = log w ++ calls /\
    map step_of calls = firstn n [Validate; Insert; Pay; Finalize] /\
    (count is_get calls <= 1)%nat /\
    (count is_insert calls <= 1)%nat /\
    (count is_post calls <= 1)%nat /\
    (count is_update calls <= 1)%nat /\
    (forall o, Decode (ReqBody r) = inr o ->
       count is_get calls = 1%nat /\
       (succeeds (get_peer env (user_url s (UserID o))) ->
        count is_insert calls = 1%nat)) /\
    (count is_insert calls = 0%nat -> db w' = db w).
Proof.
  destruct r as [[err|o]]; cbn [ReqBody Decode].
  { exists [], 0%nat. cbn. rewrite app_nil_r.
    split; [reflexivity|]. split; [reflexivity|]. do 4 (split; [lia|]).
    split; [intros ? [=] | reflexivity]. }
  rewrite CreateOrder_run. cbn zeta.
  destruct (get_peer env (user_url s (UserID o))) as [e|code|] eqn:Hpeer;
    [| destruct (Z.eqb_spec code StatusOK) as [->|Hcode];
       [ destruct (insert_error env);
         [| destruct (post_peer env (payment_url s) (next_id (db w)) (Amount o))
              as [e|code'|]; [| destruct (code' =? StatusOK) |] ] |] |].
  all: eexists _, _; split; [reflexivity|]; cbn.
  all: split;
    [ match goal with
      | |- ?l = _ =>
          let n := eval cbv in (List.length l) in
          instantiate (1 := n); reflexivity
      end |].
  all: do 4 (split; [lia|]).
  all: split;
    [ intros o' [= <-]; split;
      [ reflexivity
      | intros Hs; unfold succeeds in Hs; try reflexivity; congruence ]
    | intros Hz; try reflexivity; discriminate Hz ].
Qed.

Lemma side_effect_budget_witness :
  let w' := world_of (CreateOrder store_down svc (request book) w0) in
  exists calls n,
    log w' = log w0 ++ calls /\
    map step_of calls = firstn n [Validate; Insert; Pay; Finalize] /\
    (count is_get calls <= 1)%nat /\
    (count is_insert calls <= 1)%nat /\
    (count is_post calls <= 1)%nat /\
    (count is_update calls <= 1)%nat /\
    (forall o, Decode (ReqBody (request book)) = inr o ->
       count is_get calls = 1%nat /\
       (succeeds (get_peer store_down (user_url svc (UserID o))) ->
        count is_insert calls = 1%nat)) /\
    (count is_insert calls = 0%nat -> db w' = db w0).
Proof.
  exact (side_effect_budget store_down svc (request book) w0).
Defined.

(** *** The status of an order *)

Lemma wf_db_insert (env : Env) (o : Order) (d : DB) (st : string) :
  wf_db d ->
  wf_db (mkDB (orders d ++ [new_row env o (next_id d) st]) (next_id d + 1)).
Proof.
  unfold wf_db. cbn [orders next_id]. intros Hwf.
  apply Forall_app. split.
  - eapply Forall_impl; [|exact Hwf]. cbn. intros; lia.
  - constructor; [cbn; lia | constructor].
Qed.

Lemma stored_status_valid (env : Env) (st : string) :
  terminal st -> valid_status (stored_status env st).
Proof.
  unfold stored_status, valid_status, terminal.
  destruct (update_error env); intuition.
Qed.

(** C6, as the specification words it, at a payment peer that never answers:
    the order is created as pending and its status is not mutated, the
    invocation sends no UPDATE at all; and at a store that rejects the
    UPDATE: the invocation answers 200 with status completed while the stored
    order is still pending. *)
Lemma mutated_exactly_once_refuted :
  (let w' := world_of (CreateOrder payments_silent svc (request book) w0) in
   orders (db w') = [new_row payments_silent book 1 "pending"] /\
   count is_update (log w') <> 1%nat) /\
  (let res := CreateOrder update_lost svc (request book) w0 in
   option_map Code (value_of res) = Some StatusOK /\
   orders (db (world_of res)) = [new_row update_lost book 1 "pending"]).
Proof.
  split; split; try reflexivity. vm_compute. discriminate.
Qed.

(** Repeated steps of the case analysis below. *)
Ltac writes_ok :=
  repeat first [apply Forall_cons | apply Forall_nil];
  cbn; unfold terminal, valid_status; auto.

Ltac no_update H :=
  unfold insert_call in H; cbn in H;
  repeat (destruct H as [H|H]; [discriminate H|]); contradiction.

Ltac no_order_created Hwf :=
  eexists _, [];
  split; [reflexivity|]; split; [symmetry; apply app_nil_r|];
  split; [exact Hwf|];
  split; [cbn; lia|]; split; [constructor|]; split; [writes_ok|];
  split; [cbn; lia|];
  split; [intros o' st [= <-] Hin; no_update Hin | intros H; contradiction].

(** C6 (amended): statuses written by an invocation are pending, completed
    and payment_failed only.  The INSERT writes pending; an UPDATE writes
    completed after a successful payment or payment_failed after a failed
    one, and addresses the order the same invocation inserted; orders stored
    before are left as they were, so no terminal status is ever left.  Each
    order gets at most one UPDATE, from the invocation that created it:
    exactly one when that invocation returns a response, none while its
    payment call has not returned.  The UPDATE's result is dropped, so the
    stored status follows it only if the store applies it. *)
Theorem order_status_lifecycle (env : Env) (s : OrderService) (r : Request)
    (w : World) :
  wf_db (db w) ->
  let res := CreateOrder env s r w in
  let id := next_id (db w) in
  exists calls new,
    log (world_of res) = log w ++ calls /\
    orders (db (world_of res)) = orders (db w) ++ new /\
    wf_db (db (world_of res)) /\
    (List.length new <= 1)%nat /\
    Forall (fun row => row_id row = id /\ valid_status (row_status row)) new /\
    Forall (status_write_ok id) calls /\
    (count is_update calls <= count is_insert calls <= 1)%nat /\
    (forall o st,
       Decode (ReqBody r) = inr o -> In (DbUpdate st id) calls ->
       let pay := post_peer env (payment_url s) id (Amount o) in
       (st = "completed" /\ succeeds pay) \/
       (st = "payment_failed" /\ fails pay)) /\
    (new <> [] ->
       (value_of res <> None -> count is_update calls = 1%nat) /\
       (value_of res = None ->
        count is_update calls = 0%nat /\
        Forall (fun row => row_status row = "pending") new)).
Proof.
  intros Hwf res id. subst res id.
  destruct r as [[err|o]]; cbn [ReqBody Decode].
  { exists [], []. cbn. rewrite !app_nil_r.
    repeat (split; [solve [auto]|]). split; [intros ? ? [=]|].
    intros H; contradiction. }
  rewrite CreateOrder_run. cbn zeta.
  destruct (get_peer env (user_url s (UserID o))) as [e|code|] eqn:Hpeer;
    [| destruct (Z.eqb_spec code StatusOK) as [->|Hcode];
       [ destruct (insert_error env);
         [| destruct (post_peer env (payment_url s) (next_id (db w)) (Amount o))
              as [e|code'|] eqn:Hpay;
            [| destruct (Z.eqb_spec code' StatusOK) as [->|Hcode'] |] ] |] |].
  all: cbn [world_of value_of db log called inserted orders next_id].
  all: rewrite ?finalize_fresh by assumption.
  1, 2, 7, 8: no_order_created Hwf.
  all: eexists _, [_]; split; [reflexivity|]; split; [reflexivity|];
    split; [apply wf_db_insert; exact Hwf|]; split; [cbn; lia|];
    split; [constructor; [split; [reflexivity|cbn] | constructor];
            try apply stored_status_valid; unfold terminal, valid_status; auto|];
    split; [writes_ok|]; split; [cbn; lia|].
  - (* payment peer unreachable *)
    split.
    + intros o' st [= <-] Hin. unfold insert_call in Hin. cbn in Hin.
      destruct Hin as [H|[H|[H|[H|[]]]]]; try discriminate H.
      injection H as <-. right. split; [reflexivity|].
      unfold fails. rewrite Hpay. exact I.
    + intros _. cbn. split; [reflexivity | discriminate].
  - (* payment accepted *)
    split.
    + intros o' st [= <-] Hin. unfold insert_call in Hin. cbn in Hin.
      destruct Hin as [H|[H|[H|[H|[]]]]]; try discriminate H.
      injection H as <-. left. split; [reflexivity | exact Hpay].
    + intros _. cbn. split; [reflexivity | discriminate].
  - (* payment declined *)
    split.
    + intros o' st [= <-] Hin. unfold insert_call in Hin. cbn in Hin.
      destruct Hin as [H|[H|[H|[H|[]]]]]; try discriminate H.
      injection H as <-. right. split; [reflexivity|].
      unfold fails. rewrite Hpay. exact Hcode'.
    + intros _. cbn. split; [reflexivity | discriminate].
  - (* payment peer silent *)
    split.
    + intros o' st [= <-] Hin. no_update Hin.
    + intros _. cbn. split; [intros H; contradiction H; reflexivity|].
      intros _. split; [reflexivity|]. constructor; [reflexivity|constructor].
Qed.

Lemma order_status_lifecycle_witness :
  let res := CreateOrder declined svc (request book) w0 in
  let id := next_id (db w0) in
  exists calls new,
    log (world_of res) = log w0 ++ calls /\
    orders (db (world_of res)) = orders (db w0) ++ new /\
    wf_db (db (world_of res)) /\
    (List.length new <= 1)%nat /\
    Forall (fun row => row_id row = id /\ valid_status (row_status row)) new /\
    Forall (status_write_ok id) calls /\
    (count is_update calls <= count is_insert calls <= 1)%nat /\
    (forall o st,
       Decode (ReqBody (request book)) = inr o -> In (DbUpdate st id) calls ->
       let pay := post_peer declined (payment_url svc) id (Amount o) in
       (st = "completed" /\ succeeds pay) \/
       (st = "payment_failed" /\ fails pay)) /\
    (new <> [] ->
       (value_of res <> None -> count is_update calls = 1%nat) /\
       (value_of res = None ->
        count is_update calls = 0%nat /\
        Forall (fun row => row_status row = "pending") new)).
Proof.
  apply (order_status_lifecycle declined svc (request book) w0).
  constructor.
Defined.

(** *** Outbound calls and time *)

(** C9, as the specification words it, at peers that never answer: a user
    lookup that gets no answer does not end as a failed validation and a
    payment call that gets no answer does not end as payment_failed; in both
    cases the invocation never produces a response, and in the second the
    order stays pending. *)
Lemma outbound_timeout_refuted :
  get_peer users_silent (user_url svc (UserID book)) = Silent /\
  ~ (exists resp w',
       CreateOrder users_silent svc (request book) w0 = Ret resp w') /\
  post_peer payments_silent (payment_url svc) 1 (Amount book) = Silent /\
  ~ (exists resp w',
       CreateOrder payments_silent svc (request book) w0 = Ret resp w') /\
  orders (db (world_of (CreateOrder payments_silent svc (request book) w0))) =
    [new_row payments_silent book 1 "pending"].
Proof.
  repeat split.
  - intros (resp & w' & H). vm_compute in H. discriminate H.
  - intros (resp & w' & H). vm_compute in H. discriminate H.
Qed.

(** C9 (amended): outbound calls go through the default HTTP client, whose
    timeout is zero, that is, none.  A user lookup that never gets an answer
    blocks the invocation before anything is stored; a payment call that
    never gets an answer blocks it with the order stored as pending.  A call
    that fails in transport is treated like one answered with a non-200
    status: for the lookup both end in HTTP 400 with the store untouched, for
    the payment both send the UPDATE to payment_failed and end in HTTP 500,
    leaving the same store and the same calls behind. *)
Theorem outbound_calls_have_no_timeout (env : Env) (s : OrderService)
    (o : Order) (w : World) :
  let id := next_id (db w) in
  let get := HttpGet (user_url s (UserID o)) in
  let post := HttpPost (payment_url s) id (Amount o) in
  Timeout DefaultClient = 0 /\
  CreateOrder (with_user_peer env Silent) s (request o) w =
    Hang (called w [get]) /\
  (succeeds (get_peer env (user_url s (UserID o))) ->
   insert_error env = None ->
   CreateOrder (with_payment_peer env Silent) s (request o) w =
     Hang (inserted env o w
             (orders (db w) ++ [new_row env o id "pending"])
             [get; insert_call env o; post])) /\
  (forall err code, code <> StatusOK ->
   exists r1 r2 w',
     CreateOrder (with_user_peer env (Refuses err)) s (request o) w = Ret r1 w' /\
     CreateOrder (with_user_peer env (Answers code)) s (request o) w = Ret r2 w' /\
     Code r1 = StatusBadRequest /\ Code r2 = StatusBadRequest /\
     db w' = db w /\ log w' = log w ++ [get]) /\
  (succeeds (get_peer env (user_url s (UserID o))) ->
   insert_error env = None ->
   forall err code, code <> StatusOK ->
   exists r1 r2 w',
     CreateOrder (with_payment_peer env (Refuses err)) s (request o) w = Ret r1 w' /\
     CreateOrder (with_payment_peer env (Answers code)) s (request o) w = Ret r2 w' /\
     Code r1 = StatusInternalServerError /\
     Code r2 = StatusInternalServerError /\
     log w' = log w ++ [get; insert_call env o; post;
                        DbUpdate "payment_failed" id]).
Proof.
  cbn zeta. unfold request.
  split; [reflexivity|]. split; [rewrite CreateOrder_run; reflexivity|].
  split; [|split].
  - intros Huser Hins. rewrite CreateOrder_run. cbn zeta.
    cbn [with_payment_peer get_peer post_peer insert_error].
    rewrite Huser, Hins. reflexivity.
  - intros err code Hcode. rewrite !CreateOrder_run. cbn zeta.
    cbn [with_user_peer get_peer].
    destruct (Z.eqb_spec code StatusOK) as [->|_]; [contradiction|].
    eexists _, _, _. repeat split.
  - intros Huser Hins err code Hcode. rewrite !CreateOrder_run. cbn zeta.
    cbn [with_payment_peer get_peer post_peer insert_error].
    rewrite Huser, Hins. change (StatusOK =? StatusOK) with true. cbn iota.
    destruct (Z.eqb_spec code StatusOK) as [->|_]; [contradiction|].
    eexists _, _, _. repeat split.
Qed.

Lemma outbound_calls_have_no_timeout_witness :
  CreateOrder (with_payment_peer happy Silent) svc (request book) w0 =
    Hang (inserted happy book w0
            (orders (db w0) ++ [new_row happy book 1 "pending"])
            [HttpGet (user_url svc (UserID book)); insert_call happy book;
             HttpPost (payment_url svc) 1 (Amount book)]) /\
  exists r1 r2 w',
    CreateOrder (with_payment_peer happy (Refuses "connection reset")) svc
                (request book) w0 = Ret r1 w' /\
    CreateOrder (with_payment_peer happy (Answers 503)) svc
                (request book) w0 = Ret r2 w' /\
    Code r1 = StatusInternalServerError /\
    Code r2 = StatusInternalServerError /\
    log w' = log w0 ++ [HttpGet (user_url svc (UserID book));
                        insert_call happy book;
                        HttpPost (payment_url svc) 1 (Amount book);
                        DbUpdate "payment_failed" 1].
Proof.
  destruct (outbound_calls_have_no_timeout happy svc book w0)
    as (_ & _ & Hsilent & _ & Hsame).
  split.
  - apply Hsilent; reflexivity.
  - apply (Hsame eq_refl eq_refl "connection reset" 503). discriminate.
Defined.

(** ** Further properties of the order service *)

Module Orchestration.

Lemma find_fresh (rows : list Row) (row : Row) :
  Forall (fun r => row_id r < row_id row) rows ->
  find (fun r => row_id r =? row_id row) (rows ++ [row]) = Some row.
Proof.
  induction 1 as [|r rows Hr _ IH]; cbn.
  - rewrite Z.eqb_refl. reflexivity.
  - destruct (Z.eqb_spec (row_id r) (row_id row)); [lia | exact IH].
Qed.

(** What one invocation does to the table: nothing, or one row appended
    under the next value of the sequence. *)
Lemma CreateOrder_grows (env : Env) (s : OrderService) (r : Request)
    (w : World) :
  wf_db (db w) ->
  let w' := world_of (CreateOrder env s r w) in
  (orders (db w') = orders (db w) /\ next_id (db w') = next_id (db w)) \/
  (exists row,
     orders (db w') = orders (db w) ++ [row] /\
     row_id row = next_id (db w) /\
     next_id (db w') = next_id (db w) + 1).
Proof.
  intros Hwf. destruct r as [[err|o]]; [left; split; reflexivity|].
  cbn zeta. rewrite CreateOrder_run. cbn zeta.
  destruct (get_peer env (user_url s (UserID o))) as [e|code|];
    [left; split; reflexivity| |left; split; reflexivity].
  destruct (code =? StatusOK); [|left; split; reflexivity].
  destruct (insert_error env); [left; split; reflexivity|].
  right.
  destruct (post_peer env (payment_url s) (next_id (db w)) (Amount o))
    as [e|code'|]; [| destruct (code' =? StatusOK) |];
    cbn [world_of db inserted orders next_id];
    rewrite ?finalize_fresh by assumption;
    eexists; repeat split.
Qed.

(** Steps shared by the case analyses of this section. *)
Ltac crack H :=
  match type of H with
  | exists _, _ => destruct H as (? & H); crack H
  | _ /\ _ => let H1 := fresh in destruct H as (H1 & H); crack H1; crack H
  | _ \/ _ => destruct H as [H|H]; crack H
  | Ret _ _ = Ret _ _ => injection H as <- <-
  | _ => idtac
  end.

Ltac settle :=
  let H := fresh in
  intros H; crack H; cbn in *;
  try discriminate; try contradiction; try congruence;
  first [ solve [eexists _, _; split; reflexivity]
        | solve [repeat split; auto; congruence]
        | solve [left; repeat split; auto; congruence]
        | solve [right; repeat split; auto; congruence]
        | idtac ].

(** X1: The response of [CreateOrder] tells its cause.  For a payload that
    parses: 200 exactly when the user lookup answered 200, the INSERT went
    through and the payment call answered 200; 400 exactly when the lookup
    failed; 500 exactly when the lookup succeeded and then the INSERT or the
    payment failed; no response exactly when a peer stays silent at its
    turn. *)
Theorem outcome_by_cause (env : Env) (s : OrderService) (o : Order)
    (w : World) :
  let user := get_peer env (user_url s (UserID o)) in
  let pay := post_peer env (payment_url s) (next_id (db w)) (Amount o) in
  let res := CreateOrder env s (request o) w in
  let answers code := exists resp w', res = Ret resp w' /\ Code resp = code in
  (answers StatusOK <->
     succeeds user /\ insert_error env = None /\ succeeds pay) /\
  (answers StatusBadRequest <-> fails user) /\
  (answers StatusInternalServerError <->
     succeeds user /\ (insert_error env <> None \/ fails pay)) /\
  (value_of res = None <->
     user = Silent \/
     (succeeds user /\ insert_error env = None /\ pay = Silent)).
Proof.
  cbn zeta. unfold request. rewrite CreateOrder_run. cbn zeta.
  unfold succeeds, fails, StatusOK, StatusBadRequest,
    StatusInternalServerError.
  destruct (get_peer env (user_url s (UserID o))) as [e|code|];
    [| destruct (Z.eqb_spec code 200) as [->|Hcode];
       [ destruct (insert_error env) as [ierr|];
         [| destruct (post_peer env (payment_url s) (next_id (db w)) (Amount o))
              as [e|code'|];
            [| destruct (Z.eqb_spec code' 200) as [->|Hcode'] |] ] |] |].
  all: cbn [value_of]; (split; [|split; [|split]]); split; settle.
  split; [reflexivity | left; discriminate].
Qed.

(** X2: The order in a 200 response is the order in the table: it echoes the
    payload's user, product, quantity and amount, carries the identifier the
    store assigned, and looking that identifier up in the table gives the row
    with the same fields and time; the row's status is completed unless the
    store rejected the UPDATE. *)
Theorem ok_response_is_stored (env : Env) (s : OrderService) (o : Order)
    (w w' : World) (resp : Response) (o' : Order) :
  wf_db (db w) ->
  CreateOrder env s (request o) w = Ret resp w' ->
  Payload resp = OrderJSON o' ->
  let row := mkRow (ID o') (UserID o') (Product o') (Quantity o') (Amount o')
                   (stored_status env "completed") (CreatedAt o') in
  UserID o' = UserID o /\ Product o' = Product o /\
  Quantity o' = Quantity o /\ Amount o' = Amount o /\
  ID o' = next_id (db w) /\
  orders (db w') = orders (db w) ++ [row] /\
  find (fun r => row_id r =? ID o') (orders (db w')) = Some row.
Proof.
  intros Hwf. unfold request. rewrite CreateOrder_run. cbn zeta.
  destruct (get_peer env (user_url s (UserID o))) as [e|code|];
    [intros [= <- _] [=]| |intros [=]].
  destruct (code =? StatusOK); [|intros [= <- _] [=]].
  destruct (insert_error env); [intros [= <- _] [=]|].
  destruct (post_peer env (payment_url s) (next_id (db w)) (Amount o))
    as [e|code'|]; [intros [= <- _] [=]| |intros [=]].
  destruct (code' =? StatusOK); [|intros [= <- _] [=]].
  intros [= <- <-] [= <-]. cbn [ID UserID Product Quantity Amount CreatedAt].
  cbn [db inserted orders]. rewrite finalize_fresh by assumption.
  repeat split.
  apply (find_fresh (orders (db w))
           (new_row env o (next_id (db w)) (stored_status env "completed"))).
  exact Hwf.
Qed.

Lemma ok_response_is_stored_witness :
  let o' := mkOrder 1 1 "book" 2 19.5%float "completed" 1000 in
  let row := mkRow 1 1 "book" 2 19.5%float "completed" 1000 in
  UserID o' = UserID book /\ Product o' = Product book /\
  Quantity o' = Quantity book /\ Amount o' = Amount book /\
  ID o' = next_id (db w0) /\
  orders (db (world_of (CreateOrder happy svc (request book) w0))) =
    orders (db w0) ++ [row] /\
  find (fun r => row_id r =? ID o')
       (orders (db (world_of (CreateOrder happy svc (request book) w0)))) =
    Some row.
Proof.
  apply (ok_response_is_stored happy svc book w0
           (world_of (CreateOrder happy svc (request book) w0))
           (mkResponse 200 "application/json"
              (OrderJSON (mkOrder 1 1 "book" 2 19.5%float "completed" 1000)))).
  - constructor.
  - reflexivity.
  - reflexivity.
Defined.

(** X3: The payment service is asked only about an order that is already in the
    table: every POST of an invocation goes to the payment URL and carries
    the identifier and the amount of a row of the table, the row of the user
    that the same invocation looked up. *)
Theorem payment_only_for_stored_order (env : Env) (s : OrderService)
    (r : Request) (w : World) :
  wf_db (db w) ->
  let w' := world_of (CreateOrder env s r w) in
  exists calls,
    log w' = log w ++ calls /\
    forall url id amount,
      In (HttpPost url id amount) calls ->
      url = payment_url s /\
      exists row,
        find (fun x => row_id x =? id) (orders (db w')) = Some row /\
        row_amount row = amount /\
        In (HttpGet (user_url s (row_user_id row))) calls /\
        ~ In row (orders (db w)).
Proof.
  intros Hwf.
  assert (Hnew : forall (o : Order) (st : string),
            ~ In (new_row env o (next_id (db w)) st) (orders (db w))).
  { intros o st Hin. unfold wf_db in Hwf. rewrite Forall_forall in Hwf.
    apply Hwf in Hin. cbn in Hin. lia. }
  destruct r as [[err|o]].
  { exists []. cbn. rewrite app_nil_r. split; [reflexivity|]. intros ? ? ? []. }
  cbn zeta. rewrite CreateOrder_run. cbn zeta.
  destruct (get_peer env (user_url s (UserID o))) as [e|code|];
    [| destruct (code =? StatusOK);
       [ destruct (insert_error env);
         [| destruct (post_peer env (payment_url s) (next_id (db w)) (Amount o))
              as [e|code'|]; [| destruct (code' =? StatusOK) |] ] |] |].
  all: cbn [world_of db log called inserted orders].
  all: rewrite ?finalize_fresh by assumption.
  all: eexists; split; [reflexivity|]; intros url id amount Hin.
  all: unfold insert_call in Hin; cbn in Hin.
  all: repeat (destruct Hin as [Hin|Hin]; [try discriminate Hin|]);
    try contradiction.
  all: injection Hin as <- <- <-; split; [reflexivity|].
  all: eexists; split;
    [ apply (find_fresh (orders (db w)) (new_row env o (next_id (db w)) _));
      exact Hwf |].
  all: split; [reflexivity|]; split; [left; reflexivity | apply Hnew].
Qed.

Lemma payment_only_for_stored_order_witness :
  let w' := world_of (CreateOrder declined svc (request book) w0) in
  exists calls,
    log w' = log w0 ++ calls /\
    forall url id amount,
      In (HttpPost url id amount) calls ->
      url = payment_url svc /\
      exists row,
        find (fun x => row_id x =? id) (orders (db w')) = Some row /\
        row_amount row = amount /\
        In (HttpGet (user_url svc (row_user_id row))) calls /\
        ~ In row (orders (db w0)).
Proof.
  apply (payment_only_for_stored_order declined svc (request book) w0).
  constructor.
Defined.

Lemma CreateOrder_wf (env : Env) (s : OrderService) (r : Request) (w : World) :
  wf_db (db w) -> wf_db (db (world_of (CreateOrder env s r w))).
Proof.
  intros Hwf. pose proof (CreateOrder_grows env s r w Hwf) as Hg.
  cbn zeta in Hg. unfold wf_db in *.
  destruct Hg as [[-> ->]|(row & -> & Hid & ->)]; [assumption|].
  apply Forall_app. split.
  - eapply Forall_impl; [|exact Hwf]. cbn. intros; lia.
  - constructor; [lia | constructor].
Qed.

(** X4: However many requests are served, one after another, the identifiers in
    the table stay pairwise distinct and below the sequence. *)
Theorem serve_keeps_ids_distinct (s : OrderService)
    (reqs : list (Env * Request)) (w : World) :
  wf_db (db w) ->
  NoDup (map row_id (orders (db w))) ->
  wf_db (db (serve s reqs w)) /\
  NoDup (map row_id (orders (db (serve s reqs w)))).
Proof.
  revert w. induction reqs as [|[env r] reqs IH]; intros w Hwf Hnd.
  { split; assumption. }
  cbn [serve]. apply IH; [apply CreateOrder_wf; exact Hwf|].
  destruct (CreateOrder_grows env s r w Hwf) as [[-> _]|(row & -> & Hid & _)];
    [assumption|].
  rewrite map_app. cbn [map]. apply NoDup_app.
  - exact Hnd.
  - constructor; [intros [] | constructor].
  - intros n Hn [<-|[]]. apply in_map_iff in Hn as (x & Hx & Hin).
    unfold wf_db in Hwf. rewrite Forall_forall in Hwf. apply Hwf in Hin. lia.
Qed.

Lemma serve_keeps_ids_distinct_witness :
  let reqs := [(happy, request book); (payments_silent, request book);
               (update_lost, request cheap)] in
  wf_db (db (serve svc reqs w0)) /\
  NoDup (map row_id (orders (db (serve svc reqs w0)))).
Proof.
  apply (serve_keeps_ids_distinct svc
           [(happy, request book); (payments_silent, request book);
            (update_lost, request cheap)] w0).
  - constructor.
  - constructor.
Defined.

(** X5: Requests served one after another only add to the table: the rows that
    were there stay as they are, status included, at most one row is added
    per request, and every added row takes its identifier from the sequence
    as it stood or later.  So an order left pending is never finalized by a
    later request. *)
Theorem serve_only_appends (s : OrderService) (reqs : list (Env * Request))
    (w : World) :
  wf_db (db w) ->
  exists new,
    orders (db (serve s reqs w)) = orders (db w) ++ new /\
    (List.length new <= List.length reqs)%nat /\
    Forall (fun row => next_id (db w) <= row_id row) new /\
    next_id (db w) <= next_id (db (serve s reqs w)).
Proof.
  revert w. induction reqs as [|[env r] reqs IH]; intros w Hwf.
  { exists []. cbn. rewrite app_nil_r. repeat split; [lia | constructor | lia]. }
  cbn [serve].
  destruct (IH _ (CreateOrder_wf env s r w Hwf))
    as (new & Hrows & Hlen & Hids & Hnext).
  destruct (CreateOrder_grows env s r w Hwf)
    as [[Hsame Hn]|(row & Hone & Hid & Hn)].
  - rewrite Hsame, Hn in *. exists new. cbn [List.length].
    repeat split; [assumption | lia | assumption | assumption].
  - rewrite Hone, Hn in *. exists (row :: new).
    rewrite Hrows, <- app_assoc. cbn [app List.length].
    repeat split; [lia| |lia].
    constructor; [lia|]. eapply Forall_impl; [|exact Hids]. cbn. intros; lia.
Qed.

Lemma serve_only_appends_witness :
  let reqs := [(payments_silent, request book); (happy, request book)] in
  exists new,
    orders (db (serve svc reqs w0)) = orders (db w0) ++ new /\
    (List.length new <= List.length reqs)%nat /\
    Forall (fun row => next_id (db w0) <= row_id row) new /\
    next_id (db w0) <= next_id (db (serve svc reqs w0)).
Proof.
  apply (serve_only_appends svc
           [(payments_silent, request book); (happy, request book)] w0).
  constructor.
Defined.

Lemma append_cancel (p a b : string) : (p ++ a = p ++ b)%string -> a = b.
Proof.
  induction p as [|c p IH]; cbn; [auto|]. intros [= H]. auto.
Qed.

Lemma read_decimal_itoa (n : Z) : read_decimal (itoa n) = Some n.
Proof.
  unfold read_decimal, itoa. rewrite NilEmpty.isi. cbn.
  rewrite DecimalZ.of_to. reflexivity.
Qed.

(** X6: For one service, the lookup URL determines the user: two different user
    identifiers are never looked up at the same URL. *)
Theorem user_url_distinct (s : OrderService) (a b : Z) :
  a <> b -> user_url s a <> user_url s b.
Proof.
  intros Hne Heq. apply Hne. unfold user_url in Heq.
  apply append_cancel, append_cancel in Heq.
  pose proof (read_decimal_itoa a) as Ha. rewrite Heq, read_decimal_itoa in Ha.
  congruence.
Qed.

Lemma user_url_distinct_witness : user_url svc 1 <> user_url svc (-1).
Proof.
  apply (user_url_distinct svc 1 (-1)). discriminate.
Defined.

End Orchestration.

(** ** Properties of the user service *)

Module UserServiceFacts.
Import UserService.

Lemma find_keeps (f : User -> bool) (l : list User) (x u : User) :
  find f l = Some u -> find f (l ++ [x]) = Some u.
Proof.
  induction l as [|y l IH]; cbn; [discriminate|].
  destruct (f y); auto.
Qed.

Lemma find_new (n : Z) (l : list User) (x : User) :
  Forall (fun u => ID u < n) l -> ID x = n ->
  find (fun u => ID u =? n) (l ++ [x]) = Some x.
Proof.
  intros Hl Hx. induction Hl as [|y l Hy _ IH]; cbn.
  - rewrite Hx, Z.eqb_refl. reflexivity.
  - destruct (Z.eqb_spec (ID y) n); [lia | exact IH].
Qed.

Lemma GetUser_ok_iff (env : Env) (userID : string) (d : DB) :
  Code (GetUser env userID d) = StatusOK <->
  query_error env = None /\
  exists n u, read_id env userID = Some n /\ In u (users d) /\ ID u = n.
Proof.
  unfold GetUser, select_user.
  destruct (query_error env) as [qerr|].
  { cbn. split; [discriminate | intros [[=] _]]. }
  destruct (read_id env userID) as [n|].
  2:{ cbn. split; [discriminate | intros (_ & ? & ? & [=] & _)]. }
  destruct (find (fun u => ID u =? n) (users d)) as [u|] eqn:Hfind.
  - apply find_some in Hfind as [Hin Hid]. apply Z.eqb_eq in Hid.
    cbn. split; [|reflexivity]. intros _. split; [reflexivity|].
    exists n, u. auto.
  - cbn. split; [discriminate|].
    intros (_ & m & u & [= <-] & Hin & Hid).
    apply (find_none _ _ Hfind) in Hin. cbn in Hin.
    apply Z.eqb_neq in Hin. contradiction.
Qed.

(** X7: [GetUser] answers 200 exactly when the SELECT works, the store can read
    the [id] parameter and the table has a row under that identifier; the
    body is then a row of the table with that identifier.  Every other case,
    a missing user as much as an unreadable parameter or a failing store,
    gets the same 404 "User not found". *)
Theorem GetUser_answers (env : Env) (userID : string) (d : DB) :
  let resp := GetUser env userID d in
  (Code resp = StatusOK <->
     query_error env = None /\
     exists n u, read_id env userID = Some n /\ In u (users d) /\ ID u = n) /\
  (Code resp <> StatusOK ->
     resp = http_Error "User not found" StatusNotFound) /\
  (forall u, Payload resp = UserJSON u ->
     Code resp = StatusOK /\ In u (users d) /\
     read_id env userID = Some (ID u)).
Proof.
  cbn zeta. split; [apply GetUser_ok_iff|].
  unfold GetUser, select_user.
  destruct (query_error env) as [qerr|]; [cbn; split; [auto | discriminate]|].
  destruct (read_id env userID) as [n|]; [|cbn; split; [auto | discriminate]].
  destruct (find (fun u => ID u =? n) (users d)) as [u|] eqn:Hfind;
    [|cbn; split; [auto | discriminate]].
  apply find_some in Hfind as [Hin Hid]. apply Z.eqb_eq in Hid. cbn. split.
  - intros H. contradiction H. reflexivity.
  - intros u' [= <-]. subst n. auto.
Qed.

(** X8: [CreateUser] answers 200, 400 or 500 and writes the table only with a
    200: then one row is appended under the next value of the sequence,
    whatever [id] the payload carried, with the name and email as sent and
    the handler's clock; the response repeats the payload's created_at, not
    the stored one.  Identifiers stay below the sequence. *)
Theorem CreateUser_writes_once (env : Env) (body : Body) (d : DB) :
  let resp := fst (CreateUser env body d) in
  let d' := snd (CreateUser env body d) in
  (Code resp = StatusOK \/ Code resp = StatusBadRequest \/
   Code resp = StatusInternalServerError) /\
  (Code resp <> StatusOK -> d' = d) /\
  (Code resp = StatusOK ->
     exists u,
       Decode body = inr u /\
       Payload resp =
         UserJSON (mkUser (next_id d) (Name u) (Email u) (CreatedAt u)) /\
       users d' =
         users d ++ [mkUser (next_id d) (Name u) (Email u) (now env)] /\
       next_id d' = next_id d + 1) /\
  (wf_db d -> wf_db d').
Proof.
  unfold CreateUser, insert_user.
  destruct body as [err|u]; cbn [Decode].
  { cbn. repeat split; auto; discriminate. }
  destruct (insert_error env) as [err|]; cbn.
  { repeat split; auto; discriminate. }
  repeat split; auto.
  - intros H. contradiction H. reflexivity.
  - intros _. exists u. repeat split.
  - intros Hwf. unfold wf_db in *. cbn. apply Forall_app. split.
    + eapply Forall_impl; [|exact Hwf]. cbn. intros; lia.
    + constructor; [cbn; lia | constructor].
Qed.

Lemma GetUser_after_CreateUser (env env' : Env) (u : User) (d : DB)
    (userID : string) :
  wf_db d ->
  insert_error env = None ->
  query_error env' = None ->
  read_id env' userID = Some (next_id d) ->
  GetUser env' userID (snd (CreateUser env (Json u) d)) =
    mkResponse StatusOK "application/json"
      (UserJSON (mkUser (next_id d) (Name u) (Email u) (now env))).
Proof.
  intros Hwf Hins Hq Hread.
  unfold CreateUser, insert_user, GetUser, select_user.
  cbn [Decode]. rewrite Hins, Hq, Hread. cbn [snd users next_id].
  rewrite (find_new (next_id d) (users d)
             (mkUser (next_id d) (Name u) (Email u) (now env)) Hwf eq_refl).
  reflexivity.
Qed.

(** X9: Round trip: a user that [CreateUser] stored is found by [GetUser] under
    the identifier the store assigned, with the name and email as sent and
    the time of the INSERT.  The two responses are the same exactly when the
    payload's created_at happened to be that time. *)
Theorem CreateUser_then_GetUser (env env' : Env) (u : User) (d : DB)
    (userID : string) :
  wf_db d ->
  insert_error env = None ->
  query_error env' = None ->
  read_id env' userID = Some (next_id d) ->
  let created := CreateUser env (Json u) d in
  GetUser env' userID (snd created) =
    mkResponse StatusOK "application/json"
      (UserJSON (mkUser (next_id d) (Name u) (Email u) (now env))) /\
  (GetUser env' userID (snd created) = fst created <-> CreatedAt u = now env).
Proof.
  intros Hwf Hins Hq Hread. cbn zeta.
  rewrite (GetUser_after_CreateUser env env' u d userID Hwf Hins Hq Hread).
  split; [reflexivity|].
  unfold CreateUser, insert_user. cbn [Decode]. rewrite Hins. cbn [fst].
  split.
  - intros [= H]. symmetry. exact H.
  - intros ->. reflexivity.
Qed.

Lemma CreateUser_then_GetUser_witness :
  let created := CreateUser up (Json bob) d0 in
  GetUser up "2" (snd created) =
    mkResponse StatusOK "application/json"
      (UserJSON (mkUser (next_id d0) (Name bob) (Email bob) (now up))) /\
  (GetUser up "2" (snd created) = fst created <-> CreatedAt bob = now up).
Proof.
  apply (CreateUser_then_GetUser up up bob d0 "2").
  - repeat constructor.
  - reflexivity.
  - reflexivity.
  - reflexivity.
Defined.

(** X10: [CreateUser] does not disturb the users already stored: a lookup that
    answered 200 before gets the same answer after, whatever the request in
    between did. *)
Theorem CreateUser_keeps_users (env env' : Env) (body : Body) (d : DB)
    (userID : string) :
  Code (GetUser env' userID d) = StatusOK ->
  GetUser env' userID (snd (CreateUser env body d)) = GetUser env' userID d.
Proof.
  unfold CreateUser, insert_user.
  destruct body as [err|u]; cbn [Decode]; [reflexivity|].
  destruct (insert_error env); [reflexivity|]. cbn [snd].
  unfold GetUser, select_user. cbn [users].
  destruct (query_error env'); [reflexivity|].
  destruct (read_id env' userID) as [n|]; [|reflexivity].
  destruct (find (fun u0 => ID u0 =? n) (users d)) as [x|] eqn:Hfind.
  - intros _. rewrite (find_keeps _ _ _ _ Hfind). reflexivity.
  - cbn. discriminate.
Qed.

Lemma CreateUser_keeps_users_witness :
  GetUser up "1" (snd (CreateUser up (Json bob) d0)) = GetUser up "1" d0.
Proof.
  apply (CreateUser_keeps_users up up (Json bob) d0 "1"). reflexivity.
Defined.

End UserServiceFacts.

(** ** The two services together *)

Module EndToEnd.
Import Scenario Wiring.

(** X11: With the user service answering at the lookup URL, [validateUser] lets a
    user identifier pass exactly when the users table has a row under it;
    otherwise it reports "user not found".  This takes a store that serves
    the SELECT and reads the printed identifier back as the same number. *)
Theorem validateUser_asks_GetUser (env : Env) (s : OrderService) (n : Z)
    (w : World) (uenv : UserService.Env) (ud : UserService.DB) :
  get_peer env (user_url s n) =
    answer_of (UserService.GetUser uenv (itoa n) ud) ->
  UserService.query_error uenv = None ->
  UserService.read_id uenv (itoa n) = Some n ->
  let w' := called w [HttpGet (user_url s n)] in
  (validateUser env s n w = Ret None w' <->
     exists u, In u (UserService.users ud) /\ UserService.ID u = n) /\
  (validateUser env s n w = Ret (Some "user not found") w' <->
     forall u, In u (UserService.users ud) -> UserService.ID u <> n).
Proof.
  intros Hwire Hq Hread. cbn zeta.
  rewrite validateUser_run, Hwire. unfold answer_of.
  pose proof (UserServiceFacts.GetUser_ok_iff uenv (itoa n) ud) as Hok.
  destruct (Z.eqb_spec (UserService.Code
                          (UserService.GetUser uenv (itoa n) ud)) StatusOK)
    as [Hc|Hc].
  - apply Hok in Hc as (_ & m & u & Hm & Hin & Hid).
    assert (m = n) by congruence. subst m.
    split; split; try reflexivity.
    + intros _. exists u. auto.
    + discriminate.
    + intros Hall. contradiction (Hall u Hin).
  - split; split; try reflexivity.
    + discriminate.
    + intros (u & Hin & Hid). contradiction Hc. apply Hok.
      split; [assumption|]. exists n, u. auto.
    + intros _ u Hin Hid. apply Hc, Hok.
      split; [assumption|]. exists n, u. auto.
Qed.

Lemma validateUser_asks_GetUser_witness :
  let w' := called w0 [HttpGet (user_url svc 1)] in
  (validateUser wired svc 1 w0 = Ret None w' <->
     exists u, In u (UserService.users UserService.d0) /\
               UserService.ID u = 1) /\
  (validateUser wired svc 1 w0 = Ret (Some "user not found") w' <->
     forall u, In u (UserService.users UserService.d0) ->
               UserService.ID u <> 1).
Proof.
  apply (validateUser_asks_GetUser wired svc 1 w0 UserService.up
           UserService.d0); reflexivity.
Defined.

(** X12: Sign up, then order: once [CreateUser] has stored a user, an order for
    the identifier the store gave that user passes validation, so that
    [CreateOrder] goes on to the INSERT. *)
Theorem signed_up_user_can_order (uenv uenv' : UserService.Env)
    (u : UserService.User) (ud : UserService.DB)
    (env : Env) (s : OrderService) (o : Order) (w : World) :
  UserService.wf_db ud ->
  UserService.insert_error uenv = None ->
  UserID o = UserService.next_id ud ->
  let ud' := snd (UserService.CreateUser uenv (UserService.Json u) ud) in
  get_peer env (user_url s (UserID o)) =
    answer_of (UserService.GetUser uenv' (itoa (UserID o)) ud') ->
  UserService.query_error uenv' = None ->
  UserService.read_id uenv' (itoa (UserID o)) = Some (UserID o) ->
  exists calls,
    log (world_of (CreateOrder env s (request o) w)) =
    log w ++ HttpGet (user_url s (UserID o)) :: insert_call env o :: calls.
Proof.
  intros Hwf Hins Hid ud' Hwire Hq Hread.
  assert (Hget : get_peer env (user_url s (UserID o)) = Answers StatusOK).
  { assert (Hread' : UserService.read_id uenv' (itoa (UserID o)) =
                      Some (UserService.next_id ud))
      by (rewrite <- Hid; exact Hread).
    rewrite Hwire. subst ud'.
    rewrite (UserServiceFacts.GetUser_after_CreateUser uenv uenv' u ud
               (itoa (UserID o)) Hwf Hins Hq Hread').
    reflexivity. }
  unfold request. rewrite CreateOrder_run. cbn zeta. rewrite Hget.
  change (StatusOK =? StatusOK) with true. cbn iota.
  destruct (insert_error env); [eexists; reflexivity|].
  destruct (post_peer env (payment_url s) (next_id (db w)) (Amount o))
    as [e|code|]; [| destruct (code =? StatusOK) |]; eexists; reflexivity.
Qed.

Lemma signed_up_user_can_order_witness :
  exists calls,
    log (world_of (CreateOrder after_signup svc (request for_bob) w0)) =
    log w0 ++ HttpGet (user_url svc (UserID for_bob)) ::
              insert_call after_signup for_bob :: calls.
Proof.
  apply (signed_up_user_can_order UserService.up UserService.up
           UserService.bob UserService.d0 after_signup svc for_bob w0).
  - repeat constructor.
  - reflexivity.
  - reflexivity.
  - reflexivity.
  - reflexivity.
  - reflexivity.
Defined.

End EndToEnd.

(** ** Properties of the single-binary application *)

Module MonolithFacts.
Import Monolith.

Lemma find_new_user (n : Z) (l : list User) (x : User) :
  Forall (fun u => User_ID u < n) l -> User_ID x = n ->
  find (fun u => User_ID u =? n) (l ++ [x]) = Some x.
Proof.
  intros Hl Hx. induction Hl as [|y l Hy _ IH]; cbn.
  - rewrite Hx, Z.eqb_refl. reflexivity.
  - destruct (Z.eqb_spec (User_ID y) n); [lia | exact IH].
Qed.

Lemma createOrderHandler_found (env : Env) (body : Decoded Order) (d : DB)
    (u : User) :
  getUserByID env (Order_UserID (value body)) d = Some u ->
  Code (fst (createOrderHandler env body d)) <> StatusNotFound.
Proof.
  intros Hfound. unfold createOrderHandler, insert_order, processPayment.
  rewrite Hfound. destruct (orders_insert_error env); [cbn; discriminate|].
  destruct (payments_insert_error env); cbn; discriminate.
Qed.

(** X13: [createOrderHandler] answers 404 exactly when the user is not found (a
    failing lookup counts as not found), 500 exactly when the user is found
    and the INSERT of the order fails, and 200 exactly when the user is found
    and that INSERT goes through, whatever becomes of the payment.  Without a
    200 nothing is written, and the users table is never written. *)
Theorem createOrderHandler_outcome (env : Env) (body : Decoded Order) (d : DB) :
  let found := getUserByID env (Order_UserID (value body)) d in
  let resp := fst (createOrderHandler env body d) in
  let d' := snd (createOrderHandler env body d) in
  (Code resp = StatusNotFound <-> found = None) /\
  (Code resp = StatusInternalServerError <->
     found <> None /\ orders_insert_error env <> None) /\
  (Code resp = StatusOK <-> found <> None /\ orders_insert_error env = None) /\
  (Code resp <> StatusOK -> d' = d) /\
  users d' = users d /\ users_next d' = users_next d.
Proof.
  cbn zeta. unfold createOrderHandler, insert_order, processPayment.
  destruct (getUserByID env (Order_UserID (value body)) d) as [u|].
  2:{ cbn. intuition (try discriminate; try congruence). }
  destruct (orders_insert_error env) as [err|].
  { cbn. intuition (try discriminate; try congruence). }
  destruct (payments_insert_error env); cbn;
    intuition (try discriminate; try congruence).
Qed.

(** X14: The payment is booked on the [id] of the payload, not on the order just
    stored: when the user is found and both INSERTs go through, the order is
    stored under the next value of its sequence, the payment row carries the
    payload's [id], and the response repeats the payload.  The payment row
    names the stored order only if the payload's [id] was that value. *)
Theorem payment_row_carries_payload_id (env : Env) (body : Decoded Order)
    (d : DB) :
  getUserByID env (Order_UserID (value body)) d <> None ->
  orders_insert_error env = None ->
  payments_insert_error env = None ->
  let order := value body in
  let stored := mkOrder (orders_next d) (Order_UserID order)
                        (Order_Product order) (Order_Amount order) in
  let paid := mkPayment (payments_next d) (Order_ID order)
                        (Order_Amount order) "completed" in
  let d' := snd (createOrderHandler env body d) in
  fst (createOrderHandler env body d) = mkResponse StatusOK (OrderJSON order) /\
  orders d' = orders d ++ [stored] /\
  payments d' = payments d ++ [paid] /\
  (Payment_OrderID paid = Order_ID stored <-> Order_ID order = orders_next d).
Proof.
  intros Hfound Hord Hpay. cbn zeta.
  unfold createOrderHandler, insert_order, processPayment.
  destruct (getUserByID env (Order_UserID (value body)) d); [|contradiction].
  rewrite Hord. cbn [orders payments users]. rewrite Hpay. cbn.
  repeat split; auto.
Qed.

Lemma payment_row_carries_payload_id_witness :
  let order := value pen in
  let stored := mkOrder (orders_next d0) (Order_UserID order)
                        (Order_Product order) (Order_Amount order) in
  let paid := mkPayment (payments_next d0) (Order_ID order)
                        (Order_Amount order) "completed" in
  let d' := snd (createOrderHandler up pen d0) in
  fst (createOrderHandler up pen d0) = mkResponse StatusOK (OrderJSON order) /\
  orders d' = orders d0 ++ [stored] /\
  payments d' = payments d0 ++ [paid] /\
  (Payment_OrderID paid = Order_ID stored <-> Order_ID order = orders_next d0).
Proof.
  apply (payment_row_carries_payload_id up pen d0).
  - discriminate.
  - reflexivity.
  - reflexivity.
Defined.

(** X15: A failed payment is not reported and not undone: when the user is found
    and the order is stored but the INSERT of the payment fails, the response
    is still 200 with the payload, the order stays in the table and no
    payment row exists for it. *)
Theorem failed_payment_leaves_order (env : Env) (body : Decoded Order)
    (d : DB) (err : string) :
  getUserByID env (Order_UserID (value body)) d <> None ->
  orders_insert_error env = None ->
  payments_insert_error env = Some err ->
  let order := value body in
  let d' := snd (createOrderHandler env body d) in
  fst (createOrderHandler env body d) = mkResponse StatusOK (OrderJSON order) /\
  orders d' = orders d ++ [mkOrder (orders_next d) (Order_UserID order)
                                   (Order_Product order) (Order_Amount order)] /\
  payments d' = payments d /\
  payments_next d' = payments_next d.
Proof.
  intros Hfound Hord Hpay. cbn zeta.
  unfold createOrderHandler, insert_order, processPayment.
  destruct (getUserByID env (Order_UserID (value body)) d); [|contradiction].
  rewrite Hord. cbn [orders payments users]. rewrite Hpay. cbn.
  repeat split.
Qed.

Lemma failed_payment_leaves_order_witness :
  let order := value pen in
  let d' := snd (createOrderHandler pay_down pen d0) in
  fst (createOrderHandler pay_down pen d0) =
    mkResponse StatusOK (OrderJSON order) /\
  orders d' = orders d0 ++ [mkOrder (orders_next d0) (Order_UserID order)
                                    (Order_Product order) (Order_Amount order)] /\
  payments d' = payments d0 /\
  payments_next d' = payments_next d0.
Proof.
  apply (failed_payment_leaves_order pay_down pen d0 "pq: connection lost").
  - discriminate.
  - reflexivity.
  - reflexivity.
Defined.

(** X16: [createUserHandler] rejects no body: whether or not the decoder reported
    an error, it inserts a row with the name and email the struct holds and
    answers 200 with that struct, so the [id] in the response is the
    payload's and never the one the store assigned.  Only a failing INSERT
    gives another answer, a 500 with nothing written.  The orders and
    payments tables are never written. *)
Theorem createUserHandler_takes_any_body (env : Env) (body : Decoded User)
    (d : DB) :
  let user := value body in
  let resp := fst (createUserHandler env body d) in
  let d' := snd (createUserHandler env body d) in
  (Code resp = StatusOK <-> users_insert_error env = None) /\
  (Code resp = StatusInternalServerError <-> users_insert_error env <> None) /\
  (Code resp = StatusOK ->
     resp = mkResponse StatusOK (UserJSON user) /\
     users d' = users d ++
                [mkUser (users_next d) (User_Name user) (User_Email user)] /\
     users_next d' = users_next d + 1) /\
  (Code resp <> StatusOK -> d' = d) /\
  orders d' = orders d /\ payments d' = payments d.
Proof.
  cbn zeta. unfold createUserHandler, insert_user.
  destruct (users_insert_error env) as [err|]; cbn;
    intuition (try discriminate; try congruence).
Qed.

(** X17: Round trip: a user that [createUserHandler] stored is found by
    [getUserByID] under the next value of the sequence at the time, with the
    name and email of the payload; an order for that identifier is then not
    turned away with 404. *)
Theorem created_user_is_found (env env' : Env) (body : Decoded User) (d : DB) :
  wf_users d ->
  users_insert_error env = None ->
  users_query_error env' = None ->
  let user := value body in
  let d' := snd (createUserHandler env body d) in
  getUserByID env' (users_next d) d' =
    Some (mkUser (users_next d) (User_Name user) (User_Email user)) /\
  forall order : Decoded Order,
    Order_UserID (value order) = users_next d ->
    Code (fst (createOrderHandler env' order d')) <> StatusNotFound.
Proof.
  intros Hwf Hins Hq. cbn zeta.
  assert (Hfound : getUserByID env' (users_next d)
                     (snd (createUserHandler env body d)) =
                   Some (mkUser (users_next d) (User_Name (value body))
                                (User_Email (value body)))).
  { unfold createUserHandler, insert_user, getUserByID.
    rewrite Hins, Hq. cbn [snd users].
    apply find_new_user; [exact Hwf | reflexivity]. }
  split; [exact Hfound|].
  intros order Huid. eapply createOrderHandler_found.
  rewrite Huid. exact Hfound.
Qed.

Lemma created_user_is_found_witness :
  let user := value cut_off in
  let d' := snd (createUserHandler up cut_off d0) in
  getUserByID up (users_next d0) d' =
    Some (mkUser (users_next d0) (User_Name user) (User_Email user)) /\
  forall order : Decoded Order,
    Order_UserID (value order) = users_next d0 ->
    Code (fst (createOrderHandler up order d')) <> StatusNotFound.
Proof.
  apply (created_user_is_found up up cut_off d0).
  - repeat constructor.
  - reflexivity.
  - reflexivity.
Defined.

End MonolithFacts.
